(** * rxpy_opkit: class-based RxPY operators and the Loguru logging family

    A shallow embedding of

      - [src/rxpy_opkit/basis/flat_operator_abc_basis.py]
        ([BaseOperator], [SimpleOperator], [FilteringOperator],
        [StatefulOperator]),
      - [src/rxpy_opkit/logging_ops/logging_operators.py]
        ([LoggingOperator], [MarbleLogger], [ContextualLogger],
        [RichLoggerOperator], [PerformanceLogger], [ConditionalLogger]) and
      - [src/rxpy_opkit/operators/debug_operators.py] ([debug]),

    followed by the properties of the specification, stated on it.

    Conventions of the embedding.

      - A Python [str] is the list of its code points.
      - A Python [int] is a [Z]; a Python [float] is a [spec_float], with
        the binary64 operations of [SpecFloat].
      - A method is a computation in the monad [M]: it reads and updates
        the fields of [self], calls the downstream observer, writes to the
        Loguru sink, reads the clock, and either returns or raises.
      - The callables handed to the constructors (formatter, predicates,
        transform) either return a result or raise an [Exception]; the
        interpreter-exit signals that [except Exception] lets through
        ([KeyboardInterrupt], [SystemExit]) are outside the model.
      - The downstream observer is a collaborator: a call on a bound
        observer is recorded in the [world] and returns.
      - [source.subscribe(on_next=..., on_error=..., on_completed=...)] is
        reactivex's: it is modelled for a source that pushes its
        notifications while it is subscribed to, with what reactivex's
        [AutoDetachObserver] does to the callbacks (see [source_subscribe]).
      - The Loguru logger is a collaborator: a call of a level method is
        recorded in the [world] and returns.  The one exception is a level
        method of [logger.opt(colors=True)], which parses the message for
        colour markup before it logs and raises [ValueError] on markup it
        does not accept; that parser is Loguru's and is a parameter,
        [colorizer].  The logger the module imports has no fields bound
        of its own (its [extra] is empty).
      - A level is given by the method of the Loguru logger that
        [getattr(logger, log_level.lower())] finds; a name that Loguru does
        not define as a level is outside the model.
      - [str(value)] and [type(value).__name__] return for every value.
      - The conversion of an [int] to a [float] is the binary64 rounding;
        the [OverflowError] of an [int] beyond the largest float, which no
        event count reaches, is outside the model. *)

From Stdlib Require Import ZArith List Bool Lia String Ascii DecimalString.
From Stdlib Require Import Floats.SpecFloat.
Import ListNotations.

Open Scope Z_scope.

(* ================================================================== *)
(** * Python data *)
(* ================================================================== *)

(** ** Text *)

(** One Unicode code point. *)
Definition pychar := N.

(** A Python [str]. *)
Definition pystr := list pychar.

(** An ASCII literal of the source. *)
Definition lit (s : string) : pystr :=
  List.map N_of_ascii (list_ascii_of_string s).

(** [str(n)] for an [int]. *)
Definition str_int (z : Z) : pystr := lit (NilZero.string_of_int (Z.to_int z)).

(** ["".join(parts)] *)
Definition join (parts : list pystr) : pystr := List.concat parts.

(** [sep.join(parts)] *)
Fixpoint join_with (sep : pystr) (parts : list pystr) : pystr :=
  match parts with
  | [] => []
  | [p] => p
  | p :: rest => p ++ sep ++ join_with sep rest
  end.

(** [s.rjust(width)]: pads with spaces on the left. *)
Definition rjust (s : pystr) (width : nat) : pystr :=
  List.repeat 32%N (width - List.length s) ++ s.

(** [c.upper()] for one ASCII code point. *)
Definition ascii_upper (c : pychar) : pychar :=
  if ((97 <=? c) && (c <=? 122))%N then (c - 32)%N else c.

(** ** Dictionaries with text keys *)

(** [a == b] on two [str]. *)
Definition str_eqb (a b : pystr) : bool :=
  if List.list_eq_dec N.eq_dec a b then true else false.

(** A [dict] whose keys are text (keyword arguments, the [extra] of a
    Loguru record): the list of its items, in insertion order. *)
Definition pydict (V : Type) : Type := list (pystr * V).


(** [d[key] = x]: the value of a key that is there is replaced where it
    stands; a new key goes to the end. *)
Fixpoint dict_set {V} (d : pydict V) (key : pystr) (x : V) : pydict V :=
  match d with
  | [] => [(key, x)]
  | (k, v) :: rest =>
      if str_eqb k key then (k, x) :: rest else (k, v) :: dict_set rest key x
  end.

(** [{**d, **kwargs}] *)
Definition dict_merge {V} (d kwargs : pydict V) : pydict V :=
  List.fold_left (fun acc kv => dict_set acc (fst kv) (snd kv)) kwargs d.

(** ** Floats: IEEE 754 binary64 *)

Definition float := spec_float.
Definition prec : Z := 53.
Definition emax : Z := 1024.

(** [float(n)] for an [int]. *)
Definition float_of_int (z : Z) : float := binary_normalize prec emax z 0 false.

Definition fsub : float -> float -> float := SFsub prec emax.
Definition fadd : float -> float -> float := SFadd prec emax.
Definition fmul : float -> float -> float := SFmul prec emax.
Definition fdiv : float -> float -> float := SFdiv prec emax.

(** [int(x)] for a finite float: truncation towards zero.  (The source
    only calls it on floats between -9 and 9.) *)
Definition int_of_float (x : float) : Z :=
  match x with
  | S754_finite s m e =>
      let a := match e with
               | Z0 => Zpos m
               | Zpos p => Z.shiftl (Zpos m) (Zpos p)
               | Zneg p => Z.shiftr (Zpos m) (Zpos p)
               end in
      if s then - a else a
  | _ => 0
  end.

(** ** Values *)

(** The values that travel through a stream: the built-in types the
    operators inspect, and [VObject cls id] for an instance of any other
    class [cls]. *)
#[warnings="-register-all"]
Inductive pyval : Type :=
| VNone
| VBool (b : bool)
| VInt (z : Z)
| VFloat (x : float)
| VStr (s : pystr)
| VList (items : list pyval)
| VTuple (items : list pyval)
| VDict (items : list (pyval * pyval))
| VObject (cls : pystr) (id : nat).

(** [type(value).__name__] *)
Definition type_name (v : pyval) : pystr :=
  match v with
  | VNone => lit "NoneType"
  | VBool _ => lit "bool"
  | VInt _ => lit "int"
  | VFloat _ => lit "float"
  | VStr _ => lit "str"
  | VList _ => lit "list"
  | VTuple _ => lit "tuple"
  | VDict _ => lit "dict"
  | VObject cls _ => cls
  end.

(** ** Exceptions *)

(** An exception object: [type(e).__name__] and [str(e)]. *)
Record pyexc : Type := Exc { exc_kind : pystr; exc_message : pystr }.

Definition AttributeError (attr : string) : pyexc :=
  Exc (lit "AttributeError")
      (lit "'NoneType' object has no attribute '" ++ lit attr ++ lit "'").
Definition ZeroDivisionError (message : string) : pyexc :=
  Exc (lit "ZeroDivisionError") (lit message).
Definition TypeError (message : string) : pyexc :=
  Exc (lit "TypeError") (lit message).
Definition IndexError : pyexc :=
  Exc (lit "IndexError") (lit "list assignment index out of range").

(** The result of calling a callable: it returns or it raises. *)
Inductive outcome (A : Type) : Type :=
| Returned (a : A)
| Raised (e : pyexc).
Arguments Returned {A} a.
Arguments Raised {A} e.

(** ** Notifications *)

Inductive notification : Type :=
| OnNext (value : pyval)
| OnError (error : pyexc)
| OnCompleted.

Definition is_terminal (n : notification) : bool :=
  match n with OnNext _ => false | _ => true end.

(* ================================================================== *)
(** * Effects *)
(* ================================================================== *)

(** ** The Loguru sink *)

(** The level methods of the Loguru logger. *)
Inductive level : Type :=
| TRACE | DEBUG | INFO | SUCCESS | WARNING | ERROR | CRITICAL.

(** One piece of a message: the literal text of an f-string, or one of its
    replacement fields, kept with the object it formats. *)
Inductive fragment : Type :=
| Text (s : pystr)                   (* literal text, or a [str] field *)
| Int (z : Z)                        (* an [int] field *)
| Value (v : pyval)                  (* [{value}] *)
| Fixed (digits : nat) (x : float)   (* [{x:.3f}] *)
| Rounded (digits : nat) (x : float) (* [round(x, 3)] *)
| Percent (num den : Z).             (* [{num / den:.1%}] *)

(** A call of a level method: the options of [logger.opt], the fields
    attached with [logger.bind], and the message. *)
Record log_record : Type := Log {
  log_level : level;
  log_raw : bool;
  log_colors : bool;
  log_extra : pydict fragment;
  log_message : list fragment
}.

(** [logger.<level>(message)] on the plain logger. *)
Definition plain (lvl : level) (message : list fragment) : log_record :=
  Log lvl false false [] message.

(** ** The world around an operator *)

(** The downstream observer bound by [subscribe]. *)
Definition Observer := nat.

(** What a method can touch besides [self]: the clock read by
    [time.time()] (its successive readings), the calls made on the
    downstream observer, and the records handed to Loguru, oldest first. *)
Record world : Type := World {
  clock : nat -> float;
  ticks : nat;
  downstream : list notification;
  sink : list log_record
}.

(** ** The monad of methods *)

(** A method with [self : S]: it ends by returning or raising, in the
    state and the world it has reached by then. *)
Definition M (S A : Type) : Type := S -> world -> outcome A * S * world.

Definition ret {S A} (a : A) : M S A := fun s w => (Returned a, s, w).

Definition bind {S A B} (m : M S A) (k : A -> M S B) : M S B :=
  fun s w =>
    match m s w with
    | (Returned a, s', w') => k a s' w'
    | (Raised e, s', w') => (Raised e, s', w')
    end.

Declare Scope py_scope.
Delimit Scope py_scope with py.
Notation "x <- m ;; k" := (bind m (fun x => k))
  (at level 61, m at next level, right associativity) : py_scope.
Notation "m ;; k" := (bind m (fun _ => k))
  (at level 61, right associativity) : py_scope.
Open Scope py_scope.

(** [raise e] *)
Definition raise {S A} (e : pyexc) : M S A := fun s w => (Raised e, s, w).

(** [try: body / except Exception as e: handler(e)] *)
Definition try_except {S A} (body : M S A) (handler : pyexc -> M S A) : M S A :=
  fun s w =>
    match body s w with
    | (Returned a, s', w') => (Returned a, s', w')
    | (Raised e, s', w') => handler e s' w'
    end.

(** Reading and assigning the fields of [self]. *)
Definition get {S} : M S S := fun s w => (Returned s, s, w).
Definition modify {S} (f : S -> S) : M S unit := fun s w => (Returned tt, f s, w).

(** Calling a callable of the configuration. *)
Definition call {S A B} (f : A -> outcome B) (x : A) : M S B :=
  fun s w => (f x, s, w).

(** [time.time()] *)
Definition time_time {S} : M S float :=
  fun s w =>
    (Returned (clock w (ticks w)), s,
     World (clock w) (Datatypes.S (ticks w)) (downstream w) (sink w)).

(** A level method of the logger. *)
Definition emit_log {S} (r : log_record) : M S unit :=
  fun s w =>
    (Returned tt, s, World (clock w) (ticks w) (downstream w) (sink w ++ [r])).

(** A call that reaches the downstream observer. *)
Definition deliver {S} (n : notification) : M S unit :=
  fun s w =>
    (Returned tt, s, World (clock w) (ticks w) (downstream w ++ [n]) (sink w)).

(** [if cond: body] *)
Definition when {S} (cond : bool) (body : M S unit) : M S unit :=
  if cond then body else ret tt.

(** [logger.bind(key=value, ...)]: the fields of the new logger are
    [{**extra, **kwargs}], those of the logger it is called on with the
    new ones written over them. *)
Definition logger_bind (extra kwargs : pydict fragment) : pydict fragment :=
  dict_merge extra kwargs.

Section Colours.
(** What a level method of [logger.opt(colors=True)] does with its
    message before it logs it: Loguru parses the message for colour
    markup ([<red>...</red>]) and raises [ValueError] on a tag that is
    not one of its colour directives, on a closing tag that closes
    nothing, and on a tag left open.  The parser is Loguru's own code;
    the message is handed to it as the pieces it is made of. *)
Variable colorizer : list fragment -> outcome unit.

(** [logger.opt(raw=raw, colors=colors).<lvl>(message)] *)
Definition opt_log {S} (raw colors : bool) (lvl : level)
    (message : list fragment) : M S unit :=
  when colors (call colorizer message) ;;
  emit_log (Log lvl raw colors [] message).
End Colours.

(** ** The source of a subscription *)

(** What an [AutoDetachObserver] passes on of what the source pushes:
    once it has passed on a terminal notification, [is_stopped] is set
    and the rest is dropped. *)
Fixpoint until_terminal (ns : list notification) : list notification :=
  match ns with
  | [] => []
  | n :: rest => if is_terminal n then [n] else n :: until_terminal rest
  end.

Section Source.
Context {S : Type}.
Variable on_next : pyval -> M S unit.
Variable on_error : pyexc -> M S unit.
Variable on_completed : M S unit.

(** [source.subscribe(on_next=on_next, on_error=on_error,
    on_completed=on_completed)], for a source that pushes [ns] while it
    is subscribed to (as [rx.of] and [rx.from_iterable] do).  reactivex
    wraps the three callbacks in an [AutoDetachObserver]:
      - a value goes to [on_next]; an exception that leaves [on_next]
        ends the pushing and is handed to [on_error], once
        ([is_stopped] is not set yet);
      - a terminal notification sets [is_stopped] and goes to its
        callback; what the source pushes after it is dropped, and an
        exception that leaves the callback leaves [subscribe]. *)
Fixpoint source_subscribe (ns : list notification) : M S unit :=
  match ns with
  | [] => ret tt
  | OnNext value :: rest =>
      fun self w =>
        match on_next value self w with
        | (Returned _, self', w') => source_subscribe rest self' w'
        | (Raised e, self', w') => on_error e self' w'
        end
  | OnError error :: _ => on_error error
  | OnCompleted :: _ => on_completed
  end.
End Source.

(* ================================================================== *)
(** * flat_operator_abc_basis.py *)
(* ================================================================== *)

(** An operator instance: the [observer] field of [BaseOperator] and the
    fields [F] its class adds. *)
Record obj (F : Type) : Type := Obj {
  observer : option Observer;
  fields : F
}.
Arguments Obj {F} observer fields.
Arguments observer {F} o.
Arguments fields {F} o.

(** Assigning the fields of the class. *)
Definition update {F} (f : F -> F) : M (obj F) unit :=
  modify (fun self => Obj (observer self) (f (fields self))).

(** [self.observer.<method>(...)]: the attribute lookup on [None] raises. *)
Definition observer_call {F} (method : string) (n : notification) : M (obj F) unit :=
  self <- get ;;
  match observer self with
  | Some _ => deliver n
  | None => raise (AttributeError method)
  end.

(** The three methods a source calls. *)
Record handlers (F : Type) : Type := Handlers {
  h_next : pyval -> M (obj F) unit;
  h_error : pyexc -> M (obj F) unit;
  h_completed : M (obj F) unit
}.
Arguments Handlers {F} h_next h_error h_completed.
Arguments h_next {F} h.
Arguments h_error {F} h.
Arguments h_completed {F} h.

Definition dispatch {F} (h : handlers F) (n : notification) : M (obj F) unit :=
  match n with
  | OnNext value => h_next h value
  | OnError error => h_error h error
  | OnCompleted => h_completed h
  end.

Module BaseOperator.

(** [__init__] *)
Definition init {F} (f : F) : obj F := Obj None f.

(** [subscribe]: stores the observer, then subscribes to the source with
    the operator's own methods. *)
Definition subscribe {F} (h : handlers F) (source : list notification)
    (observer : Observer) : M (obj F) unit :=
  modify (fun self => Obj (Some observer) (fields self)) ;;
  source_subscribe (h_next h) (h_error h) (h_completed h) source.

Definition on_error {F} (error : pyexc) : M (obj F) unit :=
  self <- get ;;
  match observer self with
  | Some _ => deliver (OnError error)
  | None => ret tt
  end.

Definition on_completed {F} : M (obj F) unit :=
  self <- get ;;
  match observer self with
  | Some _ => deliver OnCompleted
  | None => ret tt
  end.

End BaseOperator.

Module SimpleOperator.

Record t : Type := Fields { transform_func : pyval -> outcome pyval }.

Definition init (transform_func : pyval -> outcome pyval) : obj t :=
  BaseOperator.init (Fields transform_func).

Definition on_next (value : pyval) : M (obj t) unit :=
  try_except
    (self <- get ;;
     transformed <- call (transform_func (fields self)) value ;;
     self <- get ;;
     match observer self with
     | Some _ => deliver (OnNext transformed)
     | None => ret tt
     end)
    (fun e =>
       self <- get ;;
       match observer self with
       | Some _ => deliver (OnError e)
       | None => ret tt
       end).

Definition methods : handlers t :=
  Handlers on_next BaseOperator.on_error BaseOperator.on_completed.

End SimpleOperator.

Module FilteringOperator.

Record t : Type := Fields { predicate : pyval -> outcome bool }.

Definition init (predicate : pyval -> outcome bool) : obj t :=
  BaseOperator.init (Fields predicate).

Definition on_next (value : pyval) : M (obj t) unit :=
  try_except
    (self <- get ;;
     keep <- call (predicate (fields self)) value ;;
     self <- get ;;
     match keep, observer self with
     | true, Some _ => deliver (OnNext value)
     | _, _ => ret tt
     end)
    (fun e =>
       self <- get ;;
       match observer self with
       | Some _ => deliver (OnError e)
       | None => ret tt
       end).

Definition methods : handlers t :=
  Handlers on_next BaseOperator.on_error BaseOperator.on_completed.

End FilteringOperator.

Module StatefulOperator.

Section WithResetState.
Context {F : Type}.
(** The abstract method. *)
Variable reset_state : M (obj F) unit.

Definition on_completed : M (obj F) unit :=
  BaseOperator.on_completed ;;
  reset_state.

Definition on_error (error : pyexc) : M (obj F) unit :=
  BaseOperator.on_error error ;;
  reset_state.
End WithResetState.

End StatefulOperator.

(* ================================================================== *)
(** * logging_operators.py *)
(* ================================================================== *)

(** ** Python list operations used by the loggers *)

(** [l[start:]] *)
Definition slice_from {A} (start : Z) (l : list A) : list A :=
  let n := Z.of_nat (List.length l) in
  let start' := if start <? 0 then Z.max 0 (n + start) else Z.min n start in
  List.skipn (Z.to_nat start') l.

(** The list [l] with the element at index [i] replaced by [x]. *)
Fixpoint replace_at {A} (i : nat) (x : A) (l : list A) : list A :=
  match l, i with
  | [], _ => []
  | _ :: rest, O => x :: rest
  | y :: rest, S i' => y :: replace_at i' x rest
  end.

(** [l[i] = x]: a negative index counts from the end; an index outside
    the list raises [IndexError]. *)
Definition setitem {A} (l : list A) (i : Z) (x : A) : outcome (list A) :=
  let n := Z.of_nat (List.length l) in
  if (0 <=? i) && (i <? n) then Returned (replace_at (Z.to_nat i) x l)
  else if (- n <=? i) && (i <? 0) then Returned (replace_at (Z.to_nat (n + i)) x l)
  else Raised IndexError.

(** ** LoggingOperator *)

Module LoggingOperator.

Record t : Type := Fields {
  prefix : pystr;
  log_values : bool;
  log_errors : bool;
  log_completion : bool;
  log_level : level;
  value_formatter : pyval -> outcome pystr;
  count : Z
}.

Definition set_count (c : Z) (f : t) : t :=
  Fields (prefix f) (log_values f) (log_errors f) (log_completion f)
         (log_level f) (value_formatter f) c.

Section WithStr.
(** Python's built-in [str]. *)
Variable py_str : pyval -> pystr.

(** [s[:97] + "..." if len(s) > 100 else s] *)
Definition shorten (s : pystr) : pystr :=
  if (100 <? Z.of_nat (List.length s)) then List.firstn 97 s ++ lit "..." else s.

Definition _default_format_value (value : pyval) : pystr :=
  match value with
  | VDict items =>
      py_str (VDict (List.firstn 5 items))
      ++ (if (5 <? Z.of_nat (List.length items))
          then lit "... (" ++ str_int (Z.of_nat (List.length items)) ++ lit " items)"
          else [])
  | VList items =>
      if (5 <? Z.of_nat (List.length items))
      then py_str (VList (List.firstn 5 items))
           ++ lit " ... (" ++ str_int (Z.of_nat (List.length items)) ++ lit " items)"
      else shorten (py_str value)
  | VTuple items =>
      if (5 <? Z.of_nat (List.length items))
      then py_str (VTuple (List.firstn 5 items))
           ++ lit " ... (" ++ str_int (Z.of_nat (List.length items)) ++ lit " items)"
      else shorten (py_str value)
  | _ => shorten (py_str value)
  end.

(** [__init__]: [value_formatter or self._default_format_value]. *)
Definition init (prefix : pystr) (log_values log_errors log_completion : bool)
    (log_level : level) (value_formatter : option (pyval -> outcome pystr))
    : obj t :=
  BaseOperator.init
    (Fields prefix log_values log_errors log_completion log_level
       (match value_formatter with
        | Some f => f
        | None => fun value => Returned (_default_format_value value)
        end)
       0).
End WithStr.

Definition on_next (value : pyval) : M (obj t) unit :=
  self <- get ;;
  when (log_values (fields self))
    (update (fun f => set_count (count f + 1) f) ;;
     self <- get ;;
     formatted_value <- call (value_formatter (fields self)) value ;;
     emit_log (plain (log_level (fields self))
                 [Text (lit "["); Text (prefix (fields self)); Text (lit "] [");
                  Int (count (fields self)); Text (lit "] Value: ");
                  Text formatted_value])) ;;
  observer_call "on_next" (OnNext value).

Definition on_error (error : pyexc) : M (obj t) unit :=
  self <- get ;;
  when (log_errors (fields self))
    (emit_log (plain ERROR
                 [Text (lit "["); Text (prefix (fields self)); Text (lit "] Error: ");
                  Text (exc_kind error); Text (lit ": "); Text (exc_message error)])) ;;
  observer_call "on_error" (OnError error).

Definition on_completed : M (obj t) unit :=
  self <- get ;;
  when (log_completion (fields self))
    (emit_log (plain INFO
                 [Text (lit "["); Text (prefix (fields self));
                  Text (lit "] Completed after "); Int (count (fields self));
                  Text (lit " values")])) ;;
  observer_call "on_completed" OnCompleted.

Definition methods : handlers t := Handlers on_next on_error on_completed.

End LoggingOperator.

(** ** MarbleLogger *)

Module MarbleLogger.

(** An entry of [self.timeline]: [("N", value)], [("E", error)] or
    [("C", None)]. *)
Inductive event : Type :=
| N (value : pyval)
| E (error : pyexc)
| C.

Record t : Type := Fields {
  name : pystr;
  width : Z;
  timeline : list event
}.

Definition bullet : pystr := [8226%N].

Section WithUpper.
(** [c.upper()] for a code point outside ASCII: the Unicode case
    mapping, which may yield several code points. *)
Variable unicode_upper : pychar -> pystr.

(** [value[0].upper()] *)
Definition first_upper (c : pychar) : pystr :=
  if (c <? 128)%N then [ascii_upper c] else unicode_upper c.

(** The symbol chosen in the loop of [_print_timeline].  ([bool] is a
    subclass of [int]; the final [else] of the source, for an event
    type other than N, E and C, is never reached.) *)
Definition symbol (ev : event) : pystr :=
  match ev with
  | N (VBool b) => str_int (if b then 1 else 0)
  | N (VInt z) => if (-9 <=? z) && (z <=? 9) then str_int z else bullet
  | N (VFloat x) =>
      if SFleb (float_of_int (-9)) x && SFleb x (float_of_int 9)
      then str_int (int_of_float x) else bullet
  | N (VStr (c :: _)) => first_upper c
  | N _ => bullet
  | E _ => lit "X"
  | C => lit "|"
  end.

(** The [for] loop, from index [i] on. *)
Fixpoint place (width : Z) (i : Z) (recent_events : list event)
    (timeline_chars : list pystr) : outcome (list pystr) :=
  match recent_events with
  | [] => Returned timeline_chars
  | ev :: rest =>
      if width =? 0 then Raised (ZeroDivisionError "integer modulo by zero")
      else
        let pos := i mod width in
        match setitem timeline_chars pos (symbol ev) with
        | Returned timeline_chars' => place width (i + 1) rest timeline_chars'
        | Raised e => Raised e
        end
  end.

(** The cells of the line: [timeline_chars] at the end of the loop. *)
Definition cells (width : Z) (timeline : list event) : outcome (list pystr) :=
  place width 0 (slice_from (- width) timeline)
        (List.repeat (lit "-") (Z.to_nat width)).

(** The message built from the cells. *)
Definition marble_message (name : pystr) (timeline_chars : list pystr)
    (suffix : pystr) : pystr :=
  rjust name 15 ++ lit ": " ++ join timeline_chars
  ++ match suffix with
     | [] => []
     | _ => lit " (" ++ suffix ++ lit ")"
     end.

Definition _print_timeline (suffix : pystr) : M (obj t) unit :=
  self <- get ;;
  timeline_chars <- call (cells (width (fields self))) (timeline (fields self)) ;;
  emit_log (plain INFO
              [Text (marble_message (name (fields self)) timeline_chars suffix)]).

Definition append (ev : event) : M (obj t) unit :=
  update (fun f => Fields (name f) (width f) (timeline f ++ [ev])).

Definition on_next (value : pyval) : M (obj t) unit :=
  append (N value) ;;
  _print_timeline [] ;;
  observer_call "on_next" (OnNext value).

Definition on_error (error : pyexc) : M (obj t) unit :=
  append (E error) ;;
  _print_timeline (lit "ERROR: " ++ exc_kind error) ;;
  observer_call "on_error" (OnError error).

Definition on_completed : M (obj t) unit :=
  append C ;;
  _print_timeline (lit "COMPLETED") ;;
  observer_call "on_completed" OnCompleted.

Definition methods : handlers t := Handlers on_next on_error on_completed.
End WithUpper.

(** [__init__]; it also logs [start_record]. *)
Definition init (name : pystr) (width : Z) : obj t :=
  BaseOperator.init (Fields name width []).

Definition start_record (name : pystr) (width : Z) : log_record :=
  plain INFO [Text (rjust name 15 ++ lit ": "
                    ++ join (List.repeat (lit "-") (Z.to_nat width))
                    ++ lit " (START)")].

End MarbleLogger.

(** ** ContextualLogger *)

Module ContextualLogger.

Record t : Type := Fields {
  name : pystr;
  context : pydict pyval;
  event_count : Z;
  start_time : float;
  (** [self.log]: the fields of the logger bound in [__init__]. *)
  log : pydict fragment
}.

(** The names that the call [logger.bind(operator=name, **self.context)]
    binds itself: the keyword [operator], and [_Logger__self], the name
    that the first parameter of Loguru's [bind(__self, **kwargs)] has
    inside the class [Logger]. *)
Definition bound_by_call (key : pystr) : bool :=
  str_eqb key (lit "operator") || str_eqb key (lit "_Logger__self").

(** [__init__], at the clock reading [now]; [context or {}].  The call
    [logger.bind(operator=name, **self.context)] is a [TypeError] (an
    argument given twice) when a key of the context is one of the names
    the call binds itself, and [__init__] raises it: [None], the wording
    of the error being the interpreter's. *)
Definition init (name : pystr) (context : option (pydict pyval))
    (now : float) : option (obj t) :=
  let context := match context with Some c => c | None => [] end in
  if List.existsb (fun kv => bound_by_call (fst kv)) context
  then None
  else
    Some
      (BaseOperator.init
         (Fields name context 0 now
            (logger_bind []
               ((lit "operator", Text name)
                :: List.map (fun kv => (fst kv, Value (snd kv))) context)))).

Definition on_next (value : pyval) : M (obj t) unit :=
  update (fun f => Fields (name f) (context f) (event_count f + 1)
                          (start_time f) (log f)) ;;
  self <- get ;;
  now <- time_time ;;
  let elapsed := fsub now (start_time (fields self)) in
  emit_log (Log INFO false false
              (logger_bind (log (fields self))
                 [(lit "event", Text (lit "on_next"));
                  (lit "count", Int (event_count (fields self)));
                  (lit "elapsed_sec", Rounded 3 elapsed);
                  (lit "value_type", Text (type_name value))])
              [Text (lit "Value: "); Value value]) ;;
  observer_call "on_next" (OnNext value).

Definition on_error (error : pyexc) : M (obj t) unit :=
  self <- get ;;
  now <- time_time ;;
  let elapsed := fsub now (start_time (fields self)) in
  emit_log (Log ERROR false false
              (logger_bind (log (fields self))
                 [(lit "event", Text (lit "on_error"));
                  (lit "count", Int (event_count (fields self)));
                  (lit "elapsed_sec", Rounded 3 elapsed);
                  (lit "error_type", Text (exc_kind error))])
              [Text (lit "Error: "); Text (exc_message error)]) ;;
  observer_call "on_error" (OnError error).

Definition on_completed : M (obj t) unit :=
  self <- get ;;
  now <- time_time ;;
  let elapsed := fsub now (start_time (fields self)) in
  emit_log (Log INFO false false
              (logger_bind (log (fields self))
                 [(lit "event", Text (lit "on_completed"));
                  (lit "count", Int (event_count (fields self)));
                  (lit "elapsed_sec", Rounded 3 elapsed)])
              [Text (lit "Completed")]) ;;
  observer_call "on_completed" OnCompleted.

Definition methods : handlers t := Handlers on_next on_error on_completed.

End ContextualLogger.

(** ** RichLoggerOperator *)

Module RichLoggerOperator.

Record t : Type := Fields {
  name : pystr;
  colorize : bool;
  show_type : bool;
  count : Z
}.

Definition init (name : pystr) (colorize show_type : bool) : obj t :=
  BaseOperator.init (Fields name colorize show_type 0).

(** [sep.join(...)] on pieces of messages. *)
Fixpoint join_fragments (sep : list fragment) (parts : list (list fragment))
    : list fragment :=
  match parts with
  | [] => []
  | [p] => p
  | p :: rest => p ++ sep ++ join_fragments sep rest
  end.

Definition tag (name : pystr) : list fragment :=
  [Text (lit "<yellow>["); Text name; Text (lit "]</yellow>")].

(** The message of [_log_dict]. *)
Definition dict_message (name : pystr) (value : list (pyval * pyval))
    : list fragment :=
  let n := Z.of_nat (List.length value) in
  if n <=? 3 then
    tag name ++ [Text (lit " Dict: {")]
    ++ join_fragments [Text (lit ", ")]
         (List.map (fun kv => [Text (lit "<blue>"); Value (fst kv);
                               Text (lit "</blue>: "); Value (snd kv)]) value)
    ++ [Text (lit "}")]
  else
    tag name ++ [Text (lit " Dict ("); Int n; Text (lit " items):"); Text [10%N]]
    ++ List.concat
         (List.map (fun kv => [Text (lit "  - <blue>"); Value (fst kv);
                               Text (lit "</blue>: "); Value (snd kv); Text [10%N]])
                   (List.firstn 5 value))
    ++ (if 5 <? n
        then [Text (lit "  ... and "); Int (n - 5); Text (lit " more items")]
        else []).

(** The message of [_log_collection]; [type(value).__name__.capitalize()]
    is ["List"] or ["Tuple"]. *)
Definition collection_message (name type_name : pystr) (value : list pyval)
    : list fragment :=
  let n := Z.of_nat (List.length value) in
  let items :=
    join_fragments [Text (lit ", ")]
      (List.map (fun item => [Value item]) (List.firstn 5 value))
    ++ (if 5 <? n then [Text (lit "... ("); Int n; Text (lit " total)")] else [])
  in
  tag name
  ++ [Text (lit " "); Text type_name; Text (lit ": <magenta>[")]
  ++ items ++ [Text (lit "]</magenta>")].

Definition type_info (show_type : bool) (value : pyval) : list fragment :=
  if show_type
  then [Text (lit " <dim>("); Text (type_name value); Text (lit ")</dim>")]
  else [].

(** [value > 0] and [value < 0] on a number. *)
Definition positive (value : pyval) : bool :=
  match value with
  | VBool b => b
  | VInt z => 0 <? z
  | VFloat x => SFltb (float_of_int 0) x
  | _ => false
  end.

Definition negative (value : pyval) : bool :=
  match value with
  | VInt z => z <? 0
  | VFloat x => SFltb x (float_of_int 0)
  | _ => false
  end.

(** The message of [_log_number]. *)
Definition number_message (name : pystr) (show_type : bool) (value : pyval)
    : list fragment :=
  let color :=
    if positive value then lit "green"
    else if negative value then lit "red" else lit "blue" in
  tag name
  ++ [Text (lit " Number: <"); Text color; Text (lit ">"); Value value;
      Text (lit "</"); Text color; Text (lit ">")]
  ++ type_info show_type value.

(** The message of [_log_default]. *)
Definition default_message (name : pystr) (show_type : bool) (value : pyval)
    : list fragment :=
  tag name ++ [Text (lit " Value: "); Value value] ++ type_info show_type value.

(** The message of [on_error]. *)
Definition error_message (name : pystr) (error : pyexc) : list fragment :=
  tag name
  ++ [Text (lit " <red>ERROR: "); Text (exc_kind error);
      Text (lit ": "); Text (exc_message error); Text (lit "</red>")].

(** The message of [on_completed]. *)
Definition completed_message (name : pystr) (count : Z) : list fragment :=
  tag name
  ++ [Text (lit " <green>COMPLETED</green> after "); Int count;
      Text (lit " items")].

(** The message an instance with the fields [f] logs for [n]. *)
Definition message (f : t) (n : notification) : list fragment :=
  match n with
  | OnNext value =>
      match value with
      | VDict items => dict_message (name f) items
      | VList items => collection_message (name f) (lit "List") items
      | VTuple items => collection_message (name f) (lit "Tuple") items
      | VBool _ | VInt _ | VFloat _ => number_message (name f) (show_type f) value
      | _ => default_message (name f) (show_type f) value
      end
  | OnError error => error_message (name f) error
  | OnCompleted => completed_message (name f) (count f)
  end.

Section WithColorizer.
(** Loguru's parser of colour markup. *)
Variable colorizer : list fragment -> outcome unit.

Definition _log_dict (value : list (pyval * pyval)) : M (obj t) unit :=
  self <- get ;;
  opt_log colorizer true (colorize (fields self)) INFO
    (dict_message (name (fields self)) value).

Definition _log_collection (type_name : pystr) (value : list pyval)
    : M (obj t) unit :=
  self <- get ;;
  opt_log colorizer false (colorize (fields self)) INFO
    (collection_message (name (fields self)) type_name value).

Definition _log_number (value : pyval) : M (obj t) unit :=
  self <- get ;;
  opt_log colorizer false (colorize (fields self)) INFO
    (number_message (name (fields self)) (show_type (fields self)) value).

Definition _log_default (value : pyval) : M (obj t) unit :=
  self <- get ;;
  opt_log colorizer false (colorize (fields self)) INFO
    (default_message (name (fields self)) (show_type (fields self)) value).

Definition on_next (value : pyval) : M (obj t) unit :=
  update (fun f => Fields (name f) (colorize f) (show_type f) (count f + 1)) ;;
  match value with
  | VDict items => _log_dict items
  | VList items => _log_collection (lit "List") items
  | VTuple items => _log_collection (lit "Tuple") items
  | VBool _ | VInt _ | VFloat _ => _log_number value
  | _ => _log_default value
  end ;;
  observer_call "on_next" (OnNext value).

Definition on_error (error : pyexc) : M (obj t) unit :=
  self <- get ;;
  opt_log colorizer false (colorize (fields self)) ERROR
    (error_message (name (fields self)) error) ;;
  observer_call "on_error" (OnError error).

Definition on_completed : M (obj t) unit :=
  self <- get ;;
  opt_log colorizer false (colorize (fields self)) SUCCESS
    (completed_message (name (fields self)) (count (fields self))) ;;
  observer_call "on_completed" OnCompleted.

Definition methods : handlers t := Handlers on_next on_error on_completed.
End WithColorizer.

End RichLoggerOperator.

(** ** PerformanceLogger *)

Module PerformanceLogger.

Record t : Type := Fields {
  name : pystr;
  log_interval : option Z;
  start_time : option float;
  last_time : option float;
  item_times : list float;
  count : Z;
  (** [self.log]: the fields of the logger bound in [__init__]. *)
  log : pydict fragment
}.

Definition init (name : pystr) (log_interval : option Z) : obj t :=
  BaseOperator.init
    (Fields name log_interval None None [] 0
       [(lit "component", Text (lit "performance")); (lit "name", Text name)]).

Definition reset_state : M (obj t) unit :=
  update (fun f => Fields (name f) (log_interval f) None None [] 0 (log f)).

(** The truth value of a float: false for 0.0 and -0.0. *)
Definition float_bool (x : float) : bool :=
  match x with S754_zero _ => false | _ => true end.

(** [sum(xs)], [min(xs)] and [max(xs)] on a non-empty list of floats. *)
Definition sum (xs : list float) : float :=
  List.fold_left fadd xs (float_of_int 0).
Definition min (x : float) (xs : list float) : float :=
  List.fold_left (fun best item => if SFltb item best then item else best) xs x.
Definition max (x : float) (xs : list float) : float :=
  List.fold_left (fun best item => if SFltb best item then item else best) xs x.

(** The [int] 0 that the source gives to the statistics of an empty
    [item_times], and to [events_per_sec] when no time has passed, is
    written 0.0: it is only formatted. *)
Definition _log_stats (status : pystr) : M (obj t) unit :=
  self <- get ;;
  let f := fields self in
  match start_time f with
  | None => ret tt
  | Some start =>
      if negb (float_bool start) || (count f =? 0) then ret tt
      else
        now <- time_time ;;
        let total_time := fsub now start in
        let '(avg_ms, min_ms, max_ms) :=
          match item_times f with
          | x :: xs =>
              let avg_interval :=
                fdiv (sum (x :: xs)) (float_of_int (Z.of_nat (List.length (x :: xs)))) in
              (fmul avg_interval (float_of_int 1000),
               fmul (min x xs) (float_of_int 1000),
               fmul (max x xs) (float_of_int 1000))
          | [] => (float_of_int 0, float_of_int 0, float_of_int 0)
          end in
        let events_per_sec :=
          if SFltb (float_of_int 0) total_time
          then fdiv (float_of_int (count f)) total_time
          else float_of_int 0 in
        emit_log (Log INFO false false
                    (logger_bind (log f)
                       [(lit "status", Text status);
                        (lit "events", Int (count f));
                        (lit "total_time_sec", Rounded 3 total_time);
                        (lit "events_per_sec", Rounded 1 events_per_sec);
                        (lit "avg_interval_ms", Rounded 2 avg_ms);
                        (lit "min_interval_ms", Rounded 2 min_ms);
                        (lit "max_interval_ms", Rounded 2 max_ms)])
                    [Text (lit "PERF ["); Text status; Text (lit "]: ");
                     Int (count f); Text (lit " events in ");
                     Fixed 3 total_time; Text (lit "s ("); Fixed 1 events_per_sec;
                     Text (lit "/sec) | interval: avg="); Fixed 2 avg_ms;
                     Text (lit "ms, min="); Fixed 2 min_ms;
                     Text (lit "ms, max="); Fixed 2 max_ms; Text (lit "ms")])
  end.

Definition on_next (value : pyval) : M (obj t) unit :=
  now <- time_time ;;
  self <- get ;;
  match start_time (fields self), last_time (fields self) with
  | None, _ =>
      update (fun f => Fields (name f) (log_interval f) (Some now) (Some now)
                              (item_times f) (count f) (log f))
  | Some _, Some last =>
      let interval := fsub now last in
      update (fun f => Fields (name f) (log_interval f) (start_time f) (Some now)
                              (item_times f ++ [interval]) (count f) (log f))
  | Some _, None =>
      raise (TypeError "unsupported operand type(s) for -: 'float' and 'NoneType'")
  end ;;
  update (fun f => Fields (name f) (log_interval f) (start_time f) (last_time f)
                          (item_times f) (count f + 1) (log f)) ;;
  self <- get ;;
  match log_interval (fields self) with
  | Some interval =>
      when (negb (interval =? 0) && (count (fields self) mod interval =? 0))
           (_log_stats (lit "PROGRESS"))
  | None => ret tt
  end ;;
  observer_call "on_next" (OnNext value).

Definition on_error (error : pyexc) : M (obj t) unit :=
  _log_stats (lit "ERROR") ;;
  observer_call "on_error" (OnError error).

Definition on_completed : M (obj t) unit :=
  _log_stats (lit "COMPLETED") ;;
  observer_call "on_completed" OnCompleted.

Definition methods : handlers t := Handlers on_next on_error on_completed.

End PerformanceLogger.

(** ** ConditionalLogger *)

Module ConditionalLogger.

Record t : Type := Fields {
  name : pystr;
  value_predicate : option (pyval -> outcome bool);
  error_predicate : option (pyexc -> outcome bool);
  log_level : level;
  summarize : bool;
  total_count : Z;
  logged_count : Z;
  (** [self.log]: the fields of the logger bound in [__init__]. *)
  log : pydict fragment
}.

Definition init (name : pystr)
    (value_predicate : option (pyval -> outcome bool))
    (error_predicate : option (pyexc -> outcome bool))
    (log_level : level) (summarize : bool) : obj t :=
  BaseOperator.init
    (Fields name value_predicate error_predicate log_level summarize 0 0
       [(lit "operator", Text name); (lit "mode", Text (lit "conditional"))]).

(** [a / b] on two [int]s, kept as the field [{a / b:.1%}] it is
    formatted into. *)
Definition truediv {S} (a b : Z) : M S fragment :=
  if b =? 0 then raise (ZeroDivisionError "division by zero")
  else ret (Percent a b).

(** [predicate is None or predicate(x)] *)
Definition should {S A} (predicate : option (A -> outcome bool)) (x : A) : M S bool :=
  match predicate with
  | None => ret true
  | Some p => call p x
  end.

Definition on_next (value : pyval) : M (obj t) unit :=
  update (fun f => Fields (name f) (value_predicate f) (error_predicate f)
                          (log_level f) (summarize f)
                          (total_count f + 1) (logged_count f) (log f)) ;;
  self <- get ;;
  should_log <- should (value_predicate (fields self)) value ;;
  when should_log
    (update (fun f => Fields (name f) (value_predicate f) (error_predicate f)
                             (log_level f) (summarize f)
                             (total_count f) (logged_count f + 1) (log f)) ;;
     self <- get ;;
     let f := fields self in
     ratio <- truediv (logged_count f) (total_count f) ;;
     emit_log (Log (log_level f) false false (log f)
                 [Text (lit "Value: "); Value value; Text (lit " (logged ");
                  Int (logged_count f); Text (lit "/"); Int (total_count f);
                  Text (lit ", "); ratio; Text (lit ")")])) ;;
  observer_call "on_next" (OnNext value).

Definition on_error (error : pyexc) : M (obj t) unit :=
  self <- get ;;
  should_log <- should (error_predicate (fields self)) error ;;
  when should_log
    (emit_log (Log ERROR false false (log (fields self))
                 [Text (lit "Error: "); Text (exc_kind error); Text (lit ": ");
                  Text (exc_message error)])) ;;
  observer_call "on_error" (OnError error).

(** The record logged by [on_completed] when a summary is due. *)
Definition summary (f : t) : log_record :=
  Log INFO false false (log f)
    [Text (lit "Completed. Logged "); Int (logged_count f); Text (lit "/");
     Int (total_count f); Text (lit " values (");
     Percent (logged_count f) (total_count f); Text (lit ")")].

Definition on_completed : M (obj t) unit :=
  self <- get ;;
  when (summarize (fields self) && (0 <? total_count (fields self)))
    (emit_log (summary (fields self))) ;;
  observer_call "on_completed" OnCompleted.

Definition methods : handlers t := Handlers on_next on_error on_completed.

End ConditionalLogger.

(* ================================================================== *)
(** * The operators of the package, taken together *)
(* ================================================================== *)

(** An instance of one of the concrete classes. *)
Inductive operator : Type :=
| Simple (self : obj SimpleOperator.t)
| Filtering (self : obj FilteringOperator.t)
| Logging (self : obj LoggingOperator.t)
| Marble (self : obj MarbleLogger.t)
| Contextual (self : obj ContextualLogger.t)
| Rich (self : obj RichLoggerOperator.t)
| Performance (self : obj PerformanceLogger.t)
| Conditional (self : obj ConditionalLogger.t).

(** The six classes of [logging_operators.py]. *)
Definition logging (op : operator) : bool :=
  match op with
  | Simple _ | Filtering _ => false
  | _ => true
  end.

(** [self.observer is not None] *)
Definition bound (op : operator) : bool :=
  let is_some (o : option Observer) := match o with Some _ => true | None => false end in
  match op with
  | Simple self => is_some (observer self)
  | Filtering self => is_some (observer self)
  | Logging self => is_some (observer self)
  | Marble self => is_some (observer self)
  | Contextual self => is_some (observer self)
  | Rich self => is_some (observer self)
  | Performance self => is_some (observer self)
  | Conditional self => is_some (observer self)
  end.

(** The state of an instance as its constructor and its own methods
    leave it: a marble timeline has a positive width (the configuration
    surface asks for a positive integer), a performance logger that has a
    start time has a last time, and the total of a conditional logger is
    not negative. *)
Definition valid (op : operator) : bool :=
  match op with
  | Marble self => 0 <? MarbleLogger.width (fields self)
  | Performance self =>
      match PerformanceLogger.start_time (fields self),
            PerformanceLogger.last_time (fields self) with
      | Some _, None => false
      | _, _ => true
      end
  | Conditional self => 0 <=? ConditionalLogger.total_count (fields self)
  | _ => true
  end.

Definition returns {A} (r : outcome A) : bool :=
  match r with Returned _ => true | Raised _ => false end.

(** The callables of the configuration that the method for [n] calls
    return (rather than raise) on it. *)
Definition callables_return (op : operator) (n : notification) : bool :=
  match op, n with
  | Simple self, OnNext value =>
      returns (SimpleOperator.transform_func (fields self) value)
  | Filtering self, OnNext value =>
      returns (FilteringOperator.predicate (fields self) value)
  | Logging self, OnNext value =>
      negb (LoggingOperator.log_values (fields self))
      || returns (LoggingOperator.value_formatter (fields self) value)
  | Conditional self, OnNext value =>
      match ConditionalLogger.value_predicate (fields self) with
      | Some p => returns (p value)
      | None => true
      end
  | Conditional self, OnError error =>
      match ConditionalLogger.error_predicate (fields self) with
      | Some p => returns (p error)
      | None => true
      end
  | _, _ => true
  end.

Section Run.
Variable unicode_upper : pychar -> pystr.
Variable colorizer : list fragment -> outcome unit.

(** Loguru accepts the colour markup of the message the method for [n]
    logs: only a [RichLoggerOperator] built with [colorize] has its
    messages parsed. *)
Definition markup_accepted (op : operator) (n : notification) : bool :=
  match op with
  | Rich self =>
      negb (RichLoggerOperator.colorize (fields self))
      || returns (colorizer (RichLoggerOperator.message (fields self) n))
  | _ => true
  end.

Definition lift {F} (inj : obj F -> operator)
    (r : outcome unit * obj F * world) : outcome unit * operator * world :=
  let '(result, self, w) := r in (result, inj self, w).

(** One call from upstream: the method of the instance's class. *)
Definition step (op : operator) (n : notification) (w : world)
    : outcome unit * operator * world :=
  match op with
  | Simple self => lift Simple (dispatch SimpleOperator.methods n self w)
  | Filtering self => lift Filtering (dispatch FilteringOperator.methods n self w)
  | Logging self => lift Logging (dispatch LoggingOperator.methods n self w)
  | Marble self =>
      lift Marble (dispatch (MarbleLogger.methods unicode_upper) n self w)
  | Contextual self => lift Contextual (dispatch ContextualLogger.methods n self w)
  | Rich self =>
      lift Rich (dispatch (RichLoggerOperator.methods colorizer) n self w)
  | Performance self => lift Performance (dispatch PerformanceLogger.methods n self w)
  | Conditional self => lift Conditional (dispatch ConditionalLogger.methods n self w)
  end.

(** The calls [ns] from upstream, one after the other, up to the first
    that raises. *)
Fixpoint run (op : operator) (ns : list notification) (w : world)
    : outcome unit * operator * world :=
  match ns with
  | [] => (Returned tt, op, w)
  | n :: rest =>
      match step op n w with
      | (Returned _, op', w') => run op' rest w'
      | (Raised e, op', w') => (Raised e, op', w')
      end
  end.

(** [self.observer = observer] *)
Definition with_observer (observer : Observer) (op : operator) : operator :=
  match op with
  | Simple self => Simple (Obj (Some observer) (fields self))
  | Filtering self => Filtering (Obj (Some observer) (fields self))
  | Logging self => Logging (Obj (Some observer) (fields self))
  | Marble self => Marble (Obj (Some observer) (fields self))
  | Contextual self => Contextual (Obj (Some observer) (fields self))
  | Rich self => Rich (Obj (Some observer) (fields self))
  | Performance self => Performance (Obj (Some observer) (fields self))
  | Conditional self => Conditional (Obj (Some observer) (fields self))
  end.

(** [op(source).subscribe(observer)], for a source that pushes [source]
    when it is subscribed to: the [subscribe] that every class inherits
    from [BaseOperator]. *)
Definition subscribe (op : operator) (source : list notification)
    (observer : Observer) (w : world) : outcome unit * operator * world :=
  match op with
  | Simple self =>
      lift Simple
        (BaseOperator.subscribe SimpleOperator.methods source observer self w)
  | Filtering self =>
      lift Filtering
        (BaseOperator.subscribe FilteringOperator.methods source observer self w)
  | Logging self =>
      lift Logging
        (BaseOperator.subscribe LoggingOperator.methods source observer self w)
  | Marble self =>
      lift Marble
        (BaseOperator.subscribe (MarbleLogger.methods unicode_upper)
           source observer self w)
  | Contextual self =>
      lift Contextual
        (BaseOperator.subscribe ContextualLogger.methods source observer self w)
  | Rich self =>
      lift Rich
        (BaseOperator.subscribe (RichLoggerOperator.methods colorizer)
           source observer self w)
  | Performance self =>
      lift Performance
        (BaseOperator.subscribe PerformanceLogger.methods source observer self w)
  | Conditional self =>
      lift Conditional
        (BaseOperator.subscribe ConditionalLogger.methods source observer self w)
  end.
End Run.

(** The grammar of a stream: values, then at most one terminal
    notification, then nothing. *)
Fixpoint rx_grammar (ns : list notification) : bool :=
  match ns with
  | [] => true
  | n :: rest =>
      if is_terminal n then match rest with [] => true | _ => false end
      else rx_grammar rest
  end.

(** ** Sample instances of the built-ins *)

(** [repr] on the values of the examples: exact on [None], [bool], [int],
    text made of printable ASCII other than quotes and backslashes,
    floats that are whole numbers below 10^16, and lists, tuples and
    dictionaries of those; a placeholder stands for the other floats and
    for objects, which no example uses. *)
Fixpoint sample_repr (v : pyval) : pystr :=
  match v with
  | VNone => lit "None"
  | VBool b => if b then lit "True" else lit "False"
  | VInt z => str_int z
  | VFloat x =>
      match x with
      | S754_zero s => if s then lit "-0.0" else lit "0.0"
      | S754_infinity s => if s then lit "-inf" else lit "inf"
      | S754_nan => lit "nan"
      | S754_finite _ _ e =>
          if (-52 <=? e) && (Z.abs (int_of_float x) <? 10 ^ 16)
             && SFeqb (float_of_int (int_of_float x)) x
          then str_int (int_of_float x) ++ lit ".0"
          else lit "<float>"
      end
  | VStr s => lit "'" ++ s ++ lit "'"
  | VList items =>
      lit "[" ++ join_with (lit ", ") (List.map sample_repr items) ++ lit "]"
  | VTuple items =>
      match items with
      | [x] => lit "(" ++ sample_repr x ++ lit ",)"
      | _ => lit "(" ++ join_with (lit ", ") (List.map sample_repr items) ++ lit ")"
      end
  | VDict items =>
      lit "{"
      ++ join_with (lit ", ")
           (List.map (fun kv => let '(k, x) := kv in
                                sample_repr k ++ lit ": " ++ sample_repr x) items)
      ++ lit "}"
  | VObject cls _ => lit "<" ++ cls ++ lit " object>"
  end.

(** [str] on the same values. *)
Definition sample_str (v : pyval) : pystr :=
  match v with
  | VStr s => s
  | _ => sample_repr v
  end.

(** A case mapping for examples whose text is ASCII: [first_upper] only
    consults it for code points from 128 on. *)
Definition sample_upper (c : pychar) : pystr := [c].

(** *** Sample callables *)

(** [lambda t: t["amount"] > 1000], the value predicate of the
    notebook's transaction monitor.  On a dictionary without the key it
    raises [KeyError]; the other errors are those of Python 3.11 for
    the built-in types (an object of another class stands for one that
    defines neither [__getitem__] nor an order). *)
Definition high_value (t : pyval) : outcome bool :=
  let type_error (message : pystr) := Raised (Exc (lit "TypeError") message) in
  match t with
  | VDict items =>
      match List.find (fun kv => match fst kv with
                                 | VStr key => str_eqb key (lit "amount")
                                 | _ => false
                                 end) items with
      | Some (_, VInt amount) => Returned (1000 <? amount)
      | Some (_, VFloat amount) => Returned (SFltb (float_of_int 1000) amount)
      | Some (_, VBool _) => Returned false
      | Some (_, other) =>
          type_error (lit "'>' not supported between instances of '"
                      ++ type_name other ++ lit "' and 'int'")
      | None => Raised (Exc (lit "KeyError") (lit "'amount'"))
      end
  | VStr _ => type_error (lit "string indices must be integers, not 'str'")
  | VList _ => type_error (lit "list indices must be integers or slices, not str")
  | VTuple _ => type_error (lit "tuple indices must be integers or slices, not str")
  | _ => type_error (lit "'" ++ type_name t ++ lit "' object is not subscriptable")
  end.

(** [lambda error: error.code >= 500], an error predicate.  An exception
    is kept as its class and its text, not its attributes: an
    [HTTPError] stands for the errors that have a code, here one of 500
    or more; the others have no attribute [code]. *)
Definition server_error (error : pyexc) : outcome bool :=
  if str_eqb (exc_kind error) (lit "HTTPError") then Returned true
  else Raised (Exc (lit "AttributeError")
                   (lit "'" ++ exc_kind error
                    ++ lit "' object has no attribute 'code'")).

(** *** A sample of Loguru's parser of colour markup *)

(** The text of a message, with [sample_str] for its values (the number
    fields with a format, which no coloured message has, count for
    nothing). *)
Definition sample_text (message : list fragment) : pystr :=
  List.concat
    (List.map (fun piece =>
                 match piece with
                 | Text s => s
                 | Int z => str_int z
                 | Value v => sample_str v
                 | _ => []
                 end) message).

(** The colour directives that [logging_operators.py] writes. *)
Definition directives : list pystr :=
  [lit "yellow"; lit "blue"; lit "magenta"; lit "green"; lit "red"; lit "dim"].

Definition ValueError (message : pystr) : pyexc := Exc (lit "ValueError") message.

(** [<name>] or [</name>] between double quotes, as Loguru's messages
    show a tag. *)
Definition quoted_tag (markup : pystr) : pystr :=
  [34%N] ++ lit "<" ++ markup ++ lit ">" ++ [34%N].

(** A tag has been read: [markup] is what stands between [<] and [>],
    [opened] the tags that are open, the innermost first. *)
Definition read_tag (markup : pystr) (opened : list pystr)
    : outcome (list pystr) :=
  match markup with
  | 47%N :: name =>
      match opened with
      | innermost :: outer =>
          if match name with [] => true | _ => str_eqb name innermost end
          then Returned outer
          else if List.existsb (str_eqb name) opened
          then Raised (ValueError (lit "Closing tag " ++ quoted_tag markup
                                   ++ lit " violates nesting rules"))
          else Raised (ValueError (lit "Closing tag " ++ quoted_tag markup
                                   ++ lit " has no corresponding opening tag"))
      | [] => Raised (ValueError (lit "Closing tag " ++ quoted_tag markup
                                  ++ lit " has no corresponding opening tag"))
      end
  | name =>
      if List.existsb (str_eqb name) directives
      then Returned (name :: opened)
      else Raised (ValueError
                     (lit "Tag " ++ quoted_tag markup
                      ++ lit " does not correspond to any known color directive, make sure you did not misspelled it (or prepend '\' to escape it)"))
  end.

(** White space of ASCII. *)
Definition is_space (c : pychar) : bool :=
  ((c =? 32) || ((9 <=? c) && (c <=? 13)))%N.

(** The scan of the text.  A tag is a [<], then characters other than
    [<], [>] and white space, then [>]; a backslash before the [<]
    makes it plain text.  [previous] is the character before,
    [reading] what has been read since a [<] (latest first, with
    whether a backslash came before), [opened] the tags that are open.
    At the end of the text every tag must have been closed. *)
Fixpoint scan (text : pystr) (previous : pychar)
    (reading : option (bool * pystr)) (opened : list pystr) : outcome unit :=
  match text with
  | [] =>
      match List.rev opened with
      | [] => Returned tt
      | outermost :: _ =>
          Raised (ValueError (lit "Opening tag " ++ quoted_tag outermost
                              ++ lit " has no corresponding closing tag"))
      end
  | c :: rest =>
      if (c =? 60)%N then scan rest c (Some ((previous =? 92)%N, [])) opened
      else
        match reading with
        | None => scan rest c None opened
        | Some (escaped, name) =>
            if (c =? 62)%N then
              if escaped then scan rest c None opened
              else
                match read_tag (List.rev name) opened with
                | Returned opened' => scan rest c None opened'
                | Raised e => Raised e
                end
            else if is_space c then scan rest c None opened
            else scan rest c (Some (escaped, c :: name)) opened
        end
  end.

(** A sample of the parser, for the examples: it does what Loguru's
    [AnsiParser] does on a message of printable ASCII whose tags use no
    other colour directive than those of [directives].  Loguru knows
    more of them (other colours and styles, the [fg] and [bg] forms,
    [level]), which this sample takes for unknown tags. *)
Definition sample_colorizer (message : list fragment) : outcome unit :=
  scan (sample_text message) 0%N None [].

(** The values that [_default_format_value] summarises rather than
    shortens: a [dict], or a [list] or [tuple] of more than 5 entries. *)
Definition summarized (value : pyval) : bool :=
  match value with
  | VDict _ => true
  | VList items | VTuple items => (5 <? List.length items)%nat
  | _ => false
  end.

(** The method of the observer that forwards [n]. *)
Definition method_name (n : notification) : string :=
  match n with
  | OnNext _ => "on_next"
  | OnError _ => "on_error"
  | OnCompleted => "on_completed"
  end.

(** [value_predicate is None or value_predicate(value)], for a predicate
    that returns on [value]. *)
Definition should_log (value_predicate : option (pyval -> outcome bool))
    (value : pyval) : bool :=
  match value_predicate with
  | None => true
  | Some p => match p value with Returned b => b | Raised _ => false end
  end.

(* ================================================================== *)
(** * operators/debug_operators.py *)
(* ================================================================== *)

(** [debug(name, print_value, logger_func)]: the operator is made of
    closures, with no instance; [observer] is the argument of the
    enclosing [subscribe], so that it is always there. *)
Module DebugOperator.

(** The variables the closures capture.  [logger_func] is any callable
    on a message: it returns, having handed some records to a sink, or it
    raises. *)
Record t : Type := Closure {
  name : pystr;
  print_value : bool;
  logger_func : list fragment -> outcome (list log_record)
}.

(** The default [logger_func], [logger.debug]. *)
Definition logger_debug (message : list fragment) : outcome (list log_record) :=
  Returned [plain DEBUG message].

(** [logger_func(message)] *)
Definition log_with (message : list fragment) : M t unit :=
  env <- get ;;
  records <- call (logger_func env) message ;;
  fun s w =>
    (Returned tt, s,
     World (clock w) (ticks w) (downstream w) (sink w ++ records)).

Definition on_next (value : pyval) : M t unit :=
  env <- get ;;
  (if print_value env
   then log_with [Text (name env); Text (lit " | on_next: "); Value value]
   else log_with [Text (name env); Text (lit " | on_next received")]) ;;
  deliver (OnNext value).

Definition on_completed : M t unit :=
  env <- get ;;
  log_with [Text (name env); Text (lit " | on_completed")] ;;
  deliver OnCompleted.

Definition on_error (error : pyexc) : M t unit :=
  env <- get ;;
  log_with [Text (name env); Text (lit " | on_error: "); Text (exc_message error)] ;;
  deliver (OnError error).

(** [subscribe]: the source, here one that pushes [source], is given the
    three closures. *)
Definition subscribe (source : list notification) : M t unit :=
  source_subscribe on_next on_error on_completed source.

End DebugOperator.

(* ================================================================== *)
(** * Notions used to state the properties *)
(* ================================================================== *)

(** What a bound [SimpleOperator] calls its observer with, for one
    notification received. *)
Definition simple_answer (transform_func : pyval -> outcome pyval)
    (n : notification) : notification :=
  match n with
  | OnNext value =>
      match transform_func value with
      | Returned transformed => OnNext transformed
      | Raised e => OnError e
      end
  | _ => n
  end.

(** What a bound [FilteringOperator] calls its observer with, for one
    notification received. *)
Definition filtering_answer (predicate : pyval -> outcome bool)
    (n : notification) : list notification :=
  match n with
  | OnNext value =>
      match predicate value with
      | Returned true => [n]
      | Returned false => []
      | Raised e => [OnError e]
      end
  | _ => [n]
  end.

(** The entry [MarbleLogger] appends to its timeline for a notification. *)
Definition marble_event (n : notification) : MarbleLogger.event :=
  match n with
  | OnNext value => MarbleLogger.N value
  | OnError error => MarbleLogger.E error
  | OnCompleted => MarbleLogger.C
  end.


(** The message of a record has a field that formats a stream value. *)
Definition mentions_value (r : log_record) : bool :=
  List.existsb (fun piece => match piece with Value _ => true | _ => false end)
               (log_message r).

Definition is_value (n : notification) : bool := negb (is_terminal n).

(* ================================================================== *)
(** * Properties *)
(* ================================================================== *)

Example str_int_neg : str_int (-5) = lit "-5".
Proof. reflexivity. Qed.

Example str_int_zero : str_int 0 = lit "0".
Proof. reflexivity. Qed.

Example rjust_short : rjust (lit "ab") 5 = lit "   ab".
Proof. reflexivity. Qed.

Example float_of_int_1000 : float_of_int 1000 = S754_finite false 8796093022208000 (-43).
Proof. reflexivity. Qed.

Example int_of_float_trunc :
  int_of_float (fdiv (float_of_int (-7)) (float_of_int 2)) = -3.
Proof. reflexivity. Qed.

(** ** Dictionaries *)










(** ** Subscription *)

Lemma until_terminal_values (values : list pyval) (rest : list notification) :
  until_terminal (List.map OnNext values ++ rest)
  = List.map OnNext values ++ until_terminal rest.
Proof.
  induction values as [|value values IH]; [reflexivity|].
  cbn [List.map List.app until_terminal is_terminal]. now rewrite IH.
Qed.

Lemma until_terminal_only_values (values : list pyval) :
  until_terminal (List.map OnNext values) = List.map OnNext values.
Proof.
  rewrite <- (List.app_nil_r (List.map OnNext values)) at 1.
  rewrite until_terminal_values. cbn [until_terminal].
  apply List.app_nil_r.
Qed.

(** A source that follows the grammar of a stream has all it pushes
    passed on. *)
Lemma until_terminal_grammar (ns : list notification) :
  rx_grammar ns = true -> until_terminal ns = ns.
Proof.
  induction ns as [|n rest IH]; [reflexivity|].
  cbn [rx_grammar until_terminal]. destruct (is_terminal n).
  - destruct rest; [reflexivity|discriminate].
  - intros Hrest. now rewrite IH.
Qed.

Lemma until_terminal_follows_grammar (ns : list notification) :
  rx_grammar (until_terminal ns) = true.
Proof.
  induction ns as [|n rest IH]; [reflexivity|].
  cbn [until_terminal]. destruct (is_terminal n) eqn:Hn.
  - cbn [rx_grammar]. now rewrite Hn.
  - cbn [rx_grammar]. now rewrite Hn.
Qed.

(** Binding the observer changes nothing else. *)
Lemma with_observer_keeps (colorizer : list fragment -> outcome unit)
    (op : operator) (observer : Observer) :
  bound (with_observer observer op) = true
  /\ valid (with_observer observer op) = valid op
  /\ logging (with_observer observer op) = logging op
  /\ (forall n, callables_return (with_observer observer op) n
                = callables_return op n)
  /\ (forall n, markup_accepted colorizer (with_observer observer op) n
                = markup_accepted colorizer op n).
Proof. destruct op; repeat split; reflexivity. Qed.

(** When the methods of a class return on what the source pushes up to
    its first terminal notification, subscribing to the source is calling
    them on that, one after the other. *)
Lemma source_subscribe_returns (unicode_upper : pychar -> pystr)
    (colorizer : list fragment -> outcome unit) {F : Type}
    (inj : obj F -> operator) (h : handlers F) :
  (forall n self w,
     step unicode_upper colorizer (inj self) n w
     = lift inj (dispatch h n self w)) ->
  forall source self w op' w',
    run unicode_upper colorizer (inj self) (until_terminal source) w
    = (Returned tt, op', w') ->
    lift inj (source_subscribe (h_next h) (h_error h) (h_completed h)
                source self w)
    = (Returned tt, op', w').
Proof.
  intros Hstep. induction source as [|n rest IH]; intros self w op' w' Hrun.
  - exact Hrun.
  - destruct n as [value|error|];
      cbn [until_terminal is_terminal run] in Hrun;
      rewrite Hstep in Hrun; cbn [dispatch] in Hrun;
      cbn [source_subscribe].
    + destruct (h_next h value self w) as [[[[]|e] self1] w1];
        cbn [lift] in Hrun; [now apply IH|discriminate Hrun].
    + destruct (h_error h error self w) as [[[[]|e] self1] w1];
        cbn [lift run] in Hrun |- *; [exact Hrun|discriminate Hrun].
    + destruct (h_completed h self w) as [[[[]|e] self1] w1];
        cbn [lift run] in Hrun |- *; [exact Hrun|discriminate Hrun].
Qed.

(** A subscription binds the observer; when no method raises, it has
    then run the methods on what the source pushed up to its first
    terminal notification. *)
Lemma subscribe_returns (unicode_upper : pychar -> pystr)
    (colorizer : list fragment -> outcome unit) (op : operator)
    (source : list notification) (observer : Observer) (w : world)
    (op' : operator) (w' : world) :
  run unicode_upper colorizer (with_observer observer op)
    (until_terminal source) w
  = (Returned tt, op', w') ->
  subscribe unicode_upper colorizer op source observer w = (Returned tt, op', w').
Proof.
  destruct op as [self|self|self|self|self|self|self|self];
    cbn [subscribe with_observer];
    unfold BaseOperator.subscribe, bind, modify;
    apply source_subscribe_returns; reflexivity.
Qed.


(** ** The default formatter of [LoggingOperator] *)

Section DefaultFormatter.
Variable py_str : pyval -> pystr.

Lemma shorten_length (s : pystr) :
  (List.length (LoggingOperator.shorten s) <= 100)%nat.
Proof.
  unfold LoggingOperator.shorten.
  destruct (100 <? Z.of_nat (List.length s)) eqn:Hlong.
  - apply Z.ltb_lt in Hlong.
    rewrite List.length_app, List.length_firstn.
    change (List.length (lit "...")) with 3%nat. lia.
  - apply Z.ltb_ge in Hlong. lia.
Qed.

Lemma shorten_long (s : pystr) :
  (100 < List.length s)%nat ->
  LoggingOperator.shorten s = List.firstn 97 s ++ lit "..."
  /\ List.length (LoggingOperator.shorten s) = 100%nat.
Proof.
  intros Hlong. unfold LoggingOperator.shorten.
  replace (100 <? Z.of_nat (List.length s)) with true
    by (symmetry; apply Z.ltb_lt; lia).
  split; [reflexivity|].
  rewrite List.length_app, List.length_firstn.
  change (List.length (lit "...")) with 3%nat. lia.
Qed.

Lemma shorten_short (s : pystr) :
  (List.length s <= 100)%nat -> LoggingOperator.shorten s = s.
Proof.
  intros Hshort. unfold LoggingOperator.shorten.
  replace (100 <? Z.of_nat (List.length s)) with false
    by (symmetry; apply Z.ltb_ge; lia).
  reflexivity.
Qed.
End DefaultFormatter.

(** C7, as the code has it.  A value that is neither a [dict] nor a [list]
    or [tuple] of more than 5 entries is rendered by [str], cut to its
    first 97 characters and ["..."] (100 characters) when [str] gives more
    than 100.  A [dict] is rendered as [str] of its first 5 entries,
    followed by ["... (N items)"] when it has N > 5 entries; a [list] or
    [tuple] of N > 5 entries as [str] of its first 5 entries followed by
    [" ... (N items)"].  N is the number of entries of the value, and a
    summary is not shortened. *)
Theorem default_format_value_by_shape (py_str : pyval -> pystr) :
  let format := LoggingOperator._default_format_value py_str in
  let count n := str_int (Z.of_nat n) in
  (forall value, summarized value = false ->
     (List.length (format value) <= 100)%nat
     /\ ((100 < List.length (py_str value))%nat ->
         format value = List.firstn 97 (py_str value) ++ lit "..."
         /\ List.length (format value) = 100%nat)
     /\ ((List.length (py_str value) <= 100)%nat -> format value = py_str value))
  /\ (forall items,
        (List.length (List.firstn 5 items) <= 5)%nat
        /\ format (VDict items)
           = py_str (VDict (List.firstn 5 items))
             ++ (if (5 <? List.length items)%nat
                 then lit "... (" ++ count (List.length items) ++ lit " items)"
                 else []))
  /\ (forall items, (5 < List.length items)%nat ->
        List.length (List.firstn 5 items) = 5%nat
        /\ format (VList items)
           = py_str (VList (List.firstn 5 items))
             ++ lit " ... (" ++ count (List.length items) ++ lit " items)"
        /\ format (VTuple items)
           = py_str (VTuple (List.firstn 5 items))
             ++ lit " ... (" ++ count (List.length items) ++ lit " items)").
Proof.
  cbv zeta. split; [|split].
  - intros value Hshape.
    assert (Hfmt : LoggingOperator._default_format_value py_str value
                   = LoggingOperator.shorten (py_str value)).
    { destruct value; try reflexivity; simpl in Hshape; try discriminate;
        apply Nat.ltb_ge in Hshape; simpl;
        replace (5 <? Z.of_nat (List.length items)) with false
          by (symmetry; apply Z.ltb_ge; lia);
        reflexivity. }
    rewrite Hfmt. split; [apply shorten_length|]. split.
    + apply shorten_long.
    + apply shorten_short.
  - intros items. split.
    + rewrite List.length_firstn. lia.
    + simpl. destruct (5 <? List.length items)%nat eqn:Hn.
      * apply Nat.ltb_lt in Hn.
        replace (5 <? Z.of_nat (List.length items)) with true
          by (symmetry; apply Z.ltb_lt; lia).
        reflexivity.
      * apply Nat.ltb_ge in Hn.
        replace (5 <? Z.of_nat (List.length items)) with false
          by (symmetry; apply Z.ltb_ge; lia).
        reflexivity.
  - intros items Hn. split; [rewrite List.length_firstn; lia|].
    simpl.
    replace (5 <? Z.of_nat (List.length items)) with true
      by (symmetry; apply Z.ltb_lt; lia).
    split; reflexivity.
Qed.

(** C7 as stated fails on a list of six 31-digit integers: [str] of the
    value has more than 100 characters and so has the formatted text,
    whose suffix gives the 6 entries of the list, not the 1 entry left
    out. *)
Lemma default_format_value_counterexample :
  let value := VList (List.repeat (VInt (10 ^ 30)) 6) in
  (100 < List.length (sample_str value))%nat
  /\ (100 < List.length (LoggingOperator._default_format_value sample_str value))%nat
  /\ LoggingOperator._default_format_value sample_str value
     = sample_str (VList (List.repeat (VInt (10 ^ 30)) 5)) ++ lit " ... (6 items)".
Proof.
  vm_compute. repeat split; lia.
Qed.

Example default_format_value_long_text :
  LoggingOperator._default_format_value sample_str (VStr (List.repeat 97%N 101))
  = List.repeat 97%N 97 ++ lit "...".
Proof. vm_compute. reflexivity. Qed.

Example default_format_value_dict :
  LoggingOperator._default_format_value sample_str
    (VDict (List.map (fun z => (VInt z, VBool true)) [1; 2; 3; 4; 5; 6]))
  = lit "{1: True, 2: True, 3: True, 4: True, 5: True}... (6 items)".
Proof. vm_compute. reflexivity. Qed.

(** ** The timeline of [MarbleLogger] *)

Lemma replace_at_app {A} (done : list A) (x y : A) (todo : list A) :
  replace_at (List.length done) y (done ++ x :: todo) = done ++ y :: todo.
Proof.
  induction done as [|d done IH]; simpl; [reflexivity|].
  now rewrite IH.
Qed.

Lemma skipn_repeat {A} (x : A) (n k : nat) :
  List.skipn k (List.repeat x n) = List.repeat x (n - k).
Proof.
  revert k. induction n as [|n IH]; intros [|k]; simpl; try reflexivity.
  apply IH.
Qed.

Lemma slice_from_last {A} (width : Z) (l : list A) :
  0 < width ->
  slice_from (- width) l = List.skipn (List.length l - Z.to_nat width) l.
Proof.
  intros Hw. unfold slice_from.
  replace (- width <? 0) with true by (symmetry; apply Z.ltb_lt; lia).
  f_equal. lia.
Qed.

Lemma join_single_chars (cs : list pystr) :
  List.Forall (fun c => List.length c = 1%nat) cs ->
  List.length (join cs) = List.length cs.
Proof.
  unfold join. induction 1 as [|c cs Hc _ IH]; simpl; [reflexivity|].
  rewrite List.length_app, Hc, IH. reflexivity.
Qed.

Section Timeline.
Variable unicode_upper : pychar -> pystr.

(** The loop writes the symbols of [recent_events] over the next cells,
    in order, and leaves the others as they are. *)
Lemma place_writes_in_order (width : Z) (recent_events : list MarbleLogger.event) :
  forall (done todo : list pystr),
    Z.of_nat (List.length (done ++ todo)) = width ->
    (List.length recent_events <= List.length todo)%nat ->
    MarbleLogger.place unicode_upper width (Z.of_nat (List.length done))
      recent_events (done ++ todo)
    = Returned (done ++ List.map (MarbleLogger.symbol unicode_upper) recent_events
                ++ List.skipn (List.length recent_events) todo).
Proof.
  induction recent_events as [|ev rest IH]; intros done todo Hwidth Hfit.
  - reflexivity.
  - destruct todo as [|cell todo]; simpl in Hfit; [lia|].
    rewrite List.length_app in Hwidth. simpl in Hwidth.
    cbn [MarbleLogger.place].
    replace (width =? 0) with false by (symmetry; apply Z.eqb_neq; lia).
    rewrite Z.mod_small by lia.
    unfold setitem.
    replace ((0 <=? Z.of_nat (List.length done))
             && (Z.of_nat (List.length done)
                 <? Z.of_nat (List.length (done ++ cell :: todo))))
      with true
      by (symmetry; apply andb_true_iff; split;
          [apply Z.leb_le | apply Z.ltb_lt; rewrite List.length_app; simpl]; lia).
    rewrite Nat2Z.id, replace_at_app.
    replace (Z.of_nat (List.length done) + 1)
      with (Z.of_nat (List.length (done ++ [MarbleLogger.symbol unicode_upper ev])))
      by (rewrite List.length_app; simpl; lia).
    replace (done ++ MarbleLogger.symbol unicode_upper ev :: todo)
      with ((done ++ [MarbleLogger.symbol unicode_upper ev]) ++ todo)
      by (rewrite <- List.app_assoc; reflexivity).
    rewrite IH.
    + rewrite <- List.app_assoc. reflexivity.
    + rewrite !List.length_app. simpl. lia.
    + lia.
Qed.

(** With a positive width the cells are the symbols of the last [width]
    events, in order, padded with dashes on the right. *)
Lemma cells_window (width : Z) (timeline : list MarbleLogger.event) :
  0 < width ->
  MarbleLogger.cells unicode_upper width timeline
  = Returned
      (List.map (MarbleLogger.symbol unicode_upper)
         (List.skipn (List.length timeline - Z.to_nat width) timeline)
       ++ List.repeat (lit "-") (Z.to_nat width - List.length timeline)).
Proof.
  intros Hw. unfold MarbleLogger.cells.
  rewrite slice_from_last by assumption.
  pose proof (place_writes_in_order width
                (List.skipn (List.length timeline - Z.to_nat width) timeline)
                [] (List.repeat (lit "-") (Z.to_nat width))) as Hplace.
  simpl in Hplace. rewrite Hplace.
  - rewrite skipn_repeat, List.length_skipn. do 3 f_equal. lia.
  - rewrite List.repeat_length. lia.
  - rewrite List.repeat_length, List.length_skipn. lia.
Qed.
End Timeline.

(** C6, as the code has it.  With a width W >= 1 and K >= W recorded
    events, [_print_timeline] logs the label, right-justified to 15
    characters, a colon, and a line of exactly W cells holding the symbols
    of the last W events in order: the most recent event is in the last
    cell, at position W - 1.  The line has W characters when each of its
    symbols is one character. *)
Theorem marble_line_shows_last_events
    (unicode_upper : pychar -> pystr) (self : obj MarbleLogger.t)
    (earlier : list MarbleLogger.event) (latest : MarbleLogger.event)
    (suffix : pystr) (w : world) :
  let W := MarbleLogger.width (fields self) in
  MarbleLogger.timeline (fields self) = earlier ++ [latest] ->
  0 < W ->
  W <= Z.of_nat (List.length (earlier ++ [latest])) ->
  exists timeline_chars : list pystr,
    MarbleLogger._print_timeline unicode_upper suffix self w
    = (Returned tt, self,
       World (clock w) (ticks w) (downstream w)
         (sink w ++ [plain INFO
                       [Text (rjust (MarbleLogger.name (fields self)) 15 ++ lit ": "
                              ++ join timeline_chars
                              ++ match suffix with
                                 | [] => []
                                 | _ => lit " (" ++ suffix ++ lit ")"
                                 end)]]))
    /\ timeline_chars
       = List.map (MarbleLogger.symbol unicode_upper)
           (List.skipn (List.length (earlier ++ [latest]) - Z.to_nat W)
                       (earlier ++ [latest]))
    /\ List.length timeline_chars = Z.to_nat W
    /\ List.nth_error timeline_chars (Z.to_nat (W - 1))
       = Some (MarbleLogger.symbol unicode_upper latest)
    /\ (List.Forall (fun c => List.length c = 1%nat) timeline_chars ->
        List.length (join timeline_chars) = Z.to_nat W).
Proof.
  intros W Htimeline Hpos Hfull.
  set (shown := List.skipn (List.length (earlier ++ [latest]) - Z.to_nat W)
                           (earlier ++ [latest])).
  assert (Hcells : MarbleLogger.cells unicode_upper W (earlier ++ [latest])
                   = Returned (List.map (MarbleLogger.symbol unicode_upper) shown)).
  { rewrite cells_window by assumption.
    replace (Z.to_nat W - List.length (earlier ++ [latest]))%nat with 0%nat by lia.
    simpl. apply f_equal, List.app_nil_r. }
  assert (Hlen : List.length (List.map (MarbleLogger.symbol unicode_upper) shown)
                 = Z.to_nat W).
  { unfold shown. rewrite List.length_map, List.length_skipn. lia. }
  exists (List.map (MarbleLogger.symbol unicode_upper) shown).
  split; [|split; [reflexivity|split; [exact Hlen|split]]].
  - unfold MarbleLogger._print_timeline, bind, get, call, emit_log.
    fold W. rewrite Htimeline, Hcells. reflexivity.
  - unfold shown. rewrite List.length_app in *. simpl in *.
    rewrite List.skipn_app.
    replace (List.length earlier + 1 - Z.to_nat W - List.length earlier)%nat
      with 0%nat by lia.
    simpl. rewrite List.map_app. simpl.
    rewrite List.nth_error_app2; rewrite List.length_map, List.length_skipn; [|lia].
    replace (Z.to_nat (W - 1)
             - (List.length earlier - (List.length earlier + 1 - Z.to_nat W)))%nat
      with 0%nat by lia.
    reflexivity.
  - intros Hone. rewrite join_single_chars by assumption. exact Hlen.
Qed.

Lemma marble_line_shows_last_events_witness :
  let self := Obj (Some 0%nat)
                (MarbleLogger.Fields (lit "Source") 2
                   [MarbleLogger.N (VInt 1); MarbleLogger.N (VInt 2);
                    MarbleLogger.N (VInt 3)]) in
  let w := World (fun _ => float_of_int 0) 0 [] [] in
  exists timeline_chars : list pystr,
    MarbleLogger._print_timeline sample_upper [] self w
    = (Returned tt, self,
       World (clock w) (ticks w) (downstream w)
         (sink w ++ [plain INFO
                       [Text (rjust (lit "Source") 15 ++ lit ": "
                              ++ join timeline_chars ++ [])]]))
    /\ timeline_chars
       = List.map (MarbleLogger.symbol sample_upper)
           [MarbleLogger.N (VInt 2); MarbleLogger.N (VInt 3)]
    /\ List.length timeline_chars = 2%nat
    /\ List.nth_error timeline_chars 1 = Some (lit "3")
    /\ (List.Forall (fun c => List.length c = 1%nat) timeline_chars ->
        List.length (join timeline_chars) = 2%nat).
Proof.
  intros self w.
  apply (marble_line_shows_last_events sample_upper self
           [MarbleLogger.N (VInt 1); MarbleLogger.N (VInt 2)]
           (MarbleLogger.N (VInt 3)) [] w).
  - reflexivity.
  - simpl. lia.
  - simpl. lia.
Defined.

(** C6 as stated fails for width 2 after 3 events: the line is ["23"], and
    position (3 - 1) mod 2 = 0 holds the symbol of the second event, not of
    the most recent one. *)
Lemma marble_most_recent_counterexample :
  let timeline := [MarbleLogger.N (VInt 1); MarbleLogger.N (VInt 2);
                   MarbleLogger.N (VInt 3)] in
  MarbleLogger.cells sample_upper 2 timeline = Returned [lit "2"; lit "3"]
  /\ List.nth_error [lit "2"; lit "3"] (Z.to_nat ((3 - 1) mod 2))
     <> Some (MarbleLogger.symbol sample_upper (MarbleLogger.N (VInt 3))).
Proof.
  split; [reflexivity|]. vm_compute. discriminate.
Qed.

(** A value between -9 and -1 takes two characters of the line. *)
Example marble_negative_digit :
  MarbleLogger.cells sample_upper 1 [MarbleLogger.N (VInt (-5))]
  = Returned [lit "-5"]
  /\ List.length (join [lit "-5"]) = 2%nat.
Proof. split; reflexivity. Qed.

Example marble_symbols :
  List.map (MarbleLogger.symbol sample_upper)
    [MarbleLogger.N (VStr (lit "hello")); MarbleLogger.N (VBool true);
     MarbleLogger.N VNone; MarbleLogger.N (VInt 10);
     MarbleLogger.N (VFloat (fdiv (float_of_int (-7)) (float_of_int 2)));
     MarbleLogger.E (ZeroDivisionError "division by zero"); MarbleLogger.C]
  = [lit "H"; lit "1"; MarbleLogger.bullet; MarbleLogger.bullet; lit "-3";
     lit "X"; lit "|"].
Proof. vm_compute. reflexivity. Qed.

Example marble_width_zero :
  MarbleLogger.cells sample_upper 0 [MarbleLogger.C]
  = Raised (ZeroDivisionError "integer modulo by zero").
Proof. reflexivity. Qed.

(** ** One call from upstream *)

Arguments lit : simpl never.
Arguments str_int : simpl never.
Arguments rjust : simpl never.
Arguments MarbleLogger.cells : simpl never.
Arguments MarbleLogger.marble_message : simpl never.
Arguments fsub : simpl never.
Arguments fdiv : simpl never.
Arguments fmul : simpl never.
Arguments float_of_int : simpl never.
Arguments SFltb : simpl never.
Arguments PerformanceLogger.sum : simpl never.
Arguments PerformanceLogger.min : simpl never.
Arguments PerformanceLogger.max : simpl never.
Arguments Z.modulo : simpl never.
Arguments Z.ltb : simpl never.
Arguments Z.eqb : simpl never.
Arguments Z.add : simpl never.

Ltac unfold_monad H :=
  unfold bind, get, ret, when, update, modify, emit_log, deliver,
    observer_call, call, raise, time_time, try_except,
    ConditionalLogger.should, ConditionalLogger.truediv in H.

Ltac unfold_methods H :=
  unfold step, lift, dispatch in H; simpl in H;
  unfold SimpleOperator.on_next, FilteringOperator.on_next,
    BaseOperator.on_error, BaseOperator.on_completed,
    StatefulOperator.on_error, StatefulOperator.on_completed,
    LoggingOperator.on_next, LoggingOperator.on_error,
    LoggingOperator.on_completed,
    MarbleLogger.on_next, MarbleLogger.on_error, MarbleLogger.on_completed,
    MarbleLogger._print_timeline, MarbleLogger.append,
    ContextualLogger.on_next, ContextualLogger.on_error,
    ContextualLogger.on_completed,
    RichLoggerOperator.on_next, RichLoggerOperator.on_error,
    RichLoggerOperator.on_completed,
    RichLoggerOperator._log_dict, RichLoggerOperator._log_collection,
    RichLoggerOperator._log_number, RichLoggerOperator._log_default,
    PerformanceLogger.on_next, PerformanceLogger.on_error,
    PerformanceLogger.on_completed, PerformanceLogger._log_stats,
    PerformanceLogger.reset_state,
    ConditionalLogger.on_next, ConditionalLogger.on_error,
    ConditionalLogger.on_completed in H.

(** Splits on the innermost test of the method run in [H]. *)
Ltac innermost_match H :=
  match type of H with
  | context [match ?x with _ => _ end] =>
      lazymatch x with
      | context [match _ with _ => _ end] => fail
      | _ => destruct x eqn:?
      end
  end.

(** Runs the method in [H] along each of its paths. *)
Ltac method_paths H :=
  unfold_methods H;
  repeat first [ progress (unfold_monad H)
               | progress (simpl in H)
               | innermost_match H ].

(** The methods of the classes that use the plain logger: each either
    returns, having called the observer once with the notification it
    received, or raises, having called nothing; it raises only on an
    unbound observer, an invalid state or a callable that raises.  It
    keeps the configuration. *)
Lemma plain_logging_step (unicode_upper : pychar -> pystr)
    (colorizer : list fragment -> outcome unit)
    (op : operator) (n : notification) (w : world) :
  logging op = true ->
  match op with Rich _ => False | _ => True end ->
  forall r op' w', step unicode_upper colorizer op n w = (r, op', w') ->
    logging op' = true
    /\ bound op' = bound op
    /\ (valid op = true -> valid op' = true)
    /\ (forall n', callables_return op' n' = callables_return op n')
    /\ match op' with Rich _ => False | _ => True end
    /\ match r with
       | Returned _ =>
           bound op = true /\ downstream w' = downstream w ++ [n]
       | Raised e =>
           bound op && valid op && callables_return op n = false
           /\ downstream w' = downstream w
           /\ (valid op = true -> callables_return op n = true ->
               e = AttributeError (method_name n))
       end.
Proof.
  intros Hlog Hplain r op' w' Hstep.
  destruct op as [self|self|self|self|self|self|self|self];
    try discriminate Hlog; try contradiction Hplain;
    destruct self as [obs f]; destruct f; destruct n as [value|error|].
  all: method_paths Hstep.
  all: injection Hstep as <- <- <-; simpl.
  all: repeat match goal with
         | H : MarbleLogger.cells _ ?width _ = Raised _ |- _ =>
             destruct (0 <? width) eqn:Hwidth;
             [ apply Z.ltb_lt in Hwidth;
               rewrite cells_window in H by assumption; discriminate H
             | clear H ]
         | H : _ = Raised _ |- _ => rewrite H
         | H : _ = Returned _ |- _ => rewrite H
         end.
  all: repeat split; simpl; auto; try discriminate;
    try (destruct obs; reflexivity);
    try (intros; discriminate).
  all: repeat match goal with
         | H : (_ =? _) = true |- _ => apply Z.eqb_eq in H
         | H : (_ =? _) = false |- _ => apply Z.eqb_neq in H
         end.
  all: try (intros Hvalid; apply Z.leb_le in Hvalid;
            first [ apply Z.leb_le; lia | intros _; exfalso; lia ]).
  all: try rewrite andb_false_r; try reflexivity.
  all: match goal with
       | |- context [0 <=? ?total] =>
           replace (0 <=? total) with false by (symmetry; apply Z.leb_gt; lia)
       end;
    destruct obs; reflexivity.
Qed.

(** A method of [RichLoggerOperator], whatever the notification: it
    counts a value; with [colorize], Loguru parses the message and what
    it raises leaves the method; otherwise the record is logged, and the
    notification goes to the observer. *)
Lemma rich_dispatch (colorizer : list fragment -> outcome unit)
    (self : obj RichLoggerOperator.t) (n : notification) (w : world) :
  let f := fields self in
  let counted :=
    Obj (observer self)
        (RichLoggerOperator.Fields
           (RichLoggerOperator.name f) (RichLoggerOperator.colorize f)
           (RichLoggerOperator.show_type f)
           (match n with
            | OnNext _ => RichLoggerOperator.count f + 1
            | _ => RichLoggerOperator.count f
            end)) in
  let record :=
    Log (match n with OnNext _ => INFO | OnError _ => ERROR | OnCompleted => SUCCESS end)
        (match n with OnNext (VDict _) => true | _ => false end)
        (RichLoggerOperator.colorize f) []
        (RichLoggerOperator.message f n) in
  dispatch (RichLoggerOperator.methods colorizer) n self w
  = match (if RichLoggerOperator.colorize f
           then colorizer (RichLoggerOperator.message f n)
           else Returned tt) with
    | Raised e => (Raised e, counted, w)
    | Returned _ =>
        match observer self with
        | Some _ =>
            (Returned tt, counted,
             World (clock w) (ticks w) (downstream w ++ [n]) (sink w ++ [record]))
        | None =>
            (Raised (AttributeError (method_name n)), counted,
             World (clock w) (ticks w) (downstream w) (sink w ++ [record]))
        end
    end.
Proof.
  destruct self as [obs [name colorize show_type count]].
  destruct n as [value|error|]; [destruct value| |];
    cbn [dispatch RichLoggerOperator.methods h_next h_error h_completed
         fields observer RichLoggerOperator.message
         RichLoggerOperator.name RichLoggerOperator.colorize
         RichLoggerOperator.show_type RichLoggerOperator.count method_name];
    unfold RichLoggerOperator.on_next, RichLoggerOperator.on_error,
      RichLoggerOperator.on_completed, RichLoggerOperator._log_dict,
      RichLoggerOperator._log_collection, RichLoggerOperator._log_number,
      RichLoggerOperator._log_default, opt_log, observer_call, update, when,
      bind, get, ret, modify, call, emit_log, deliver, raise;
    cbn [fields observer RichLoggerOperator.name RichLoggerOperator.colorize
         RichLoggerOperator.show_type RichLoggerOperator.count];
    destruct colorize;
    try match goal with
        | |- context [colorizer ?message] =>
            destruct (colorizer message) as [[]|e]
        end;
    destruct obs; reflexivity.
Qed.

(** A method of a logging operator either returns, having called the
    observer once with the notification it received, or raises, having
    called nothing; it raises only on an unbound observer, an invalid
    state, a callable that raises or a message whose colour markup Loguru
    does not accept.  It keeps the configuration. *)
Lemma logging_step (unicode_upper : pychar -> pystr)
    (colorizer : list fragment -> outcome unit)
    (op : operator) (n : notification) (w : world) :
  logging op = true ->
  forall r op' w', step unicode_upper colorizer op n w = (r, op', w') ->
    logging op' = true
    /\ bound op' = bound op
    /\ (valid op = true -> valid op' = true)
    /\ (forall n', callables_return op' n' = callables_return op n')
    /\ (forall n', n' <> OnCompleted ->
                   markup_accepted colorizer op' n' = markup_accepted colorizer op n')
    /\ match r with
       | Returned _ =>
           bound op = true /\ downstream w' = downstream w ++ [n]
       | Raised e =>
           bound op && valid op && callables_return op n
           && markup_accepted colorizer op n = false
           /\ downstream w' = downstream w
           /\ (valid op = true -> callables_return op n = true ->
               markup_accepted colorizer op n = true ->
               e = AttributeError (method_name n))
       end.
Proof.
  intros Hlog r op' w' Hstep.
  assert (Hplain : (exists self, op = Rich self)
                   \/ match op with Rich _ => False | _ => True end)
    by (destruct op; eauto).
  destruct Hplain as [[self ->]|Hplain].
  - cbn [step] in Hstep. rewrite rich_dispatch in Hstep.
    cbn [markup_accepted bound valid callables_return logging].
    destruct self as [obs [name colorize show_type count]].
    cbn [fields observer RichLoggerOperator.colorize RichLoggerOperator.name
         RichLoggerOperator.show_type RichLoggerOperator.count] in Hstep |- *.
    assert (Hkeeps : forall c n', n' <> OnCompleted ->
              RichLoggerOperator.message
                (RichLoggerOperator.Fields name colorize show_type c) n'
              = RichLoggerOperator.message
                  (RichLoggerOperator.Fields name colorize show_type count) n').
    { intros c [value|error|] Hn'; [reflexivity|reflexivity|contradiction]. }
    destruct colorize; cbn [negb orb] in Hstep |- *.
    + destruct (colorizer _) as [[]|e0] eqn:Hmarkup in Hstep.
      * destruct obs; cbn [lift] in Hstep; injection Hstep as <- <- <-;
          cbn [logging bound valid callables_return markup_accepted fields
               observer RichLoggerOperator.colorize downstream negb orb];
          repeat split; auto;
          try (intros n' Hn'; now rewrite Hkeeps).
      * cbn [lift] in Hstep. injection Hstep as <- <- <-.
        cbn [logging bound valid callables_return markup_accepted fields
             observer RichLoggerOperator.colorize downstream negb orb].
        rewrite Hmarkup. cbn [returns].
        repeat split; auto; try (intros; discriminate);
          try (intros n' Hn'; now rewrite Hkeeps).
        now rewrite !andb_false_r.
    + destruct obs; cbn [lift] in Hstep; injection Hstep as <- <- <-;
        cbn [logging bound valid callables_return markup_accepted fields
             observer RichLoggerOperator.colorize downstream negb orb];
        repeat split; auto.
  - destruct (plain_logging_step unicode_upper colorizer op n w Hlog Hplain
                r op' w' Hstep)
      as (Hlog' & Hbound & Hvalid & Hsame & Hplain' & Hr).
    assert (Haccepted : forall o n', match o with Rich _ => False | _ => True end ->
                                     markup_accepted colorizer o n' = true)
      by (intros o n' Ho; destruct o; solve [reflexivity | contradiction]).
    repeat (split; [assumption|]).
    split; [intros n' _; now rewrite !Haccepted|].
    rewrite (Haccepted op n Hplain), andb_true_r.
    destruct r as [[]|e]; [assumption|].
    destruct Hr as (Hraise & Hdown & He). auto.
Qed.

(** A method of [SimpleOperator] or [FilteringOperator] always returns and
    leaves the instance as it was.  Unbound it calls nothing; bound it
    forwards a terminal notification as it is, and answers a value with
    at most one call, which is [on_next] when the configured callable
    returns. *)
Lemma basis_step (unicode_upper : pychar -> pystr)
    (colorizer : list fragment -> outcome unit)
    (op : operator) (n : notification) (w : world) :
  logging op = false ->
  exists delta,
    step unicode_upper colorizer op n w
    = (Returned tt, op,
       World (clock w) (ticks w) (downstream w ++ delta) (sink w))
    /\ (bound op = false -> delta = [])
    /\ (bound op = true -> is_terminal n = true -> delta = [n])
    /\ (is_terminal n = false -> callables_return op n = true ->
        delta = [] \/ exists value, delta = [OnNext value]).
Proof.
  intros Hlog.
  destruct op as [self|self|self|self|self|self|self|self];
    try discriminate Hlog;
    destruct self as [obs f]; destruct f as [callable];
    destruct n as [value|error|]; simpl;
    unfold SimpleOperator.on_next, FilteringOperator.on_next,
      BaseOperator.on_error, BaseOperator.on_completed,
      try_except, bind, get, call, deliver, ret; simpl.
  all: try (destruct (callable value) as [result|e];
            [try (destruct result as [|])|]);
    destruct obs; simpl.
  all: try (eexists; split; [reflexivity|];
            repeat split; intros; try discriminate; eauto; fail).
  all: exists []; rewrite List.app_nil_r; destruct w;
    repeat split; intros; try discriminate; eauto.
Qed.


(** ** Values pass through the logging operators *)

(** Whatever happens, the values a logging operator has delivered are the
    first values it received, in order and as they were; they are all of
    them when no method raised. *)
Lemma delivered_values_are_a_prefix (unicode_upper : pychar -> pystr)
    (colorizer : list fragment -> outcome unit)
    (values : list pyval) :
  forall (op : operator) (w : world),
    logging op = true ->
    forall r op' w',
      run unicode_upper colorizer op (List.map OnNext values) w = (r, op', w') ->
      exists k,
        (k <= List.length values)%nat
        /\ downstream w' = downstream w ++ List.map OnNext (List.firstn k values)
        /\ (returns r = true -> k = List.length values).
Proof.
  induction values as [|value values IH]; intros op w Hlog r op' w' Hrun.
  - injection Hrun as <- <- <-. exists 0%nat. simpl.
    rewrite List.app_nil_r. auto.
  - simpl in Hrun.
    destruct (step unicode_upper colorizer op (OnNext value) w) as [[r1 op1] w1] eqn:Hstep.
    destruct (logging_step unicode_upper colorizer op (OnNext value) w Hlog
                r1 op1 w1 Hstep)
      as (Hlog1 & _ & _ & _ & _ & Hr1).
    destruct r1 as [[]|e].
    + destruct Hr1 as [_ Hdown1].
      destruct (IH op1 w1 Hlog1 r op' w' Hrun) as (k & Hk & Hdown & Hall).
      exists (S k). simpl. split; [lia|]. split.
      * rewrite Hdown, Hdown1, <- List.app_assoc. reflexivity.
      * intros Hr. now rewrite (Hall Hr).
    + injection Hrun as <- <- <-. destruct Hr1 as (_ & Hdown1 & _).
      exists 0%nat. simpl. rewrite List.app_nil_r.
      split; [lia|]. split; [assumption|discriminate].
Qed.

(** A logging operator with an observer, whose state is valid, whose
    configured callables return on the values it receives and whose
    messages Loguru accepts, delivers to its observer exactly these
    values, and no method raises. *)
Lemma bound_logger_passes_values (unicode_upper : pychar -> pystr)
    (colorizer : list fragment -> outcome unit)
    (values : list pyval) :
  forall (op : operator) (w : world),
    logging op = true ->
    bound op = true ->
    valid op = true ->
    (forall value, List.In value values ->
                   callables_return op (OnNext value) = true
                   /\ markup_accepted colorizer op (OnNext value) = true) ->
    exists op' w',
      run unicode_upper colorizer op (List.map OnNext values) w = (Returned tt, op', w')
      /\ downstream w' = downstream w ++ List.map OnNext values.
Proof.
  induction values as [|value values IH]; intros op w Hlog Hbound Hvalid Hcall.
  - exists op, w. simpl. rewrite List.app_nil_r. auto.
  - simpl.
    destruct (step unicode_upper colorizer op (OnNext value) w) as [[r1 op1] w1] eqn:Hstep.
    destruct (logging_step unicode_upper colorizer op (OnNext value) w Hlog r1 op1 w1 Hstep)
      as (Hlog1 & Hbound1 & Hvalid1 & Hsame & Hmarkup & Hr1).
    destruct r1 as [[]|e].
    + destruct Hr1 as [_ Hdown1].
      destruct (IH op1 w1) as (op' & w' & Hrun & Hdown); auto.
      * congruence.
      * intros v Hv. rewrite Hsame, Hmarkup by discriminate.
        apply Hcall. now right.
      * exists op', w'. split; [assumption|].
        rewrite Hdown, Hdown1, <- List.app_assoc. reflexivity.
    + destruct Hr1 as (Hraise & _).
      destruct (Hcall value (or_introl eq_refl)) as [Hreturns Haccepted].
      rewrite Hbound, Hvalid, Hreturns, Haccepted in Hraise.
      discriminate.
Qed.

(** Where every logging call returns, values pass through: an instance
    of one of the six logging classes, in a valid state, whose
    configured callables (formatter, value predicate) return on the
    values of the source and whose messages Loguru accepts, subscribed
    to a source of values, calls its observer with exactly these values,
    in the same order and unchanged, and no method raises. *)
Lemma values_pass_when_logging_returns (unicode_upper : pychar -> pystr)
    (colorizer : list fragment -> outcome unit)
    (op : operator) (values : list pyval) (observer : Observer) (w : world) :
  logging op = true ->
  valid op = true ->
  (forall value, List.In value values ->
                 callables_return op (OnNext value) = true
                 /\ markup_accepted colorizer op (OnNext value) = true) ->
  exists op' w',
    subscribe unicode_upper colorizer op (List.map OnNext values) observer w
    = (Returned tt, op', w')
    /\ downstream w' = downstream w ++ List.map OnNext values.
Proof.
  intros Hlog Hvalid Hcall.
  destruct (with_observer_keeps colorizer op observer)
    as (Hbound & Hvalid' & Hlog' & Hcall' & Hmarkup').
  destruct (bound_logger_passes_values unicode_upper colorizer values
              (with_observer observer op) w)
    as (op' & w' & Hrun & Hdown).
  - congruence.
  - assumption.
  - congruence.
  - intros value Hvalue. rewrite Hcall', Hmarkup'. now apply Hcall.
  - exists op', w'. split; [|assumption].
    apply subscribe_returns. now rewrite until_terminal_only_values.
Qed.

Example logging_operator_scenario :
  let op := Logging (LoggingOperator.init sample_str (lit "RxLog")
                       true true true INFO None) in
  let w := World (fun _ => float_of_int 0) 0 [] [] in
  let source := List.map (fun z => OnNext (VInt z)) [1; 2; 3; 4; 5] ++ [OnCompleted] in
  let result := subscribe sample_upper sample_colorizer op source 0%nat w in
  fst (fst result) = Returned tt
  /\ downstream (snd result) = source
  /\ List.last (sink (snd result)) (plain INFO [])
     = plain INFO [Text (lit "["); Text (lit "RxLog");
                   Text (lit "] Completed after "); Int 5; Text (lit " values")].
Proof. vm_compute. repeat split; reflexivity. Qed.

(** With colours on, a number and a plain word pass through a
    [RichLoggerOperator]; a word in angle brackets does not: Loguru takes
    it for a colour directive it does not know, the [ValueError] leaves
    [on_next] and the observer is not called. *)
Example rich_logger_scenario :
  let op := Rich (Obj (Some 0%nat)
                    (fields (RichLoggerOperator.init (lit "DataStream") true true))) in
  let w := World (fun _ => float_of_int 0) 0 [] [] in
  let passed := run sample_upper sample_colorizer op
                  [OnNext (VInt 42); OnNext (VStr (lit "Simple string"))] w in
  let stopped := step sample_upper sample_colorizer op
                   (OnNext (VStr (lit "<html>"))) w in
  fst (fst passed) = Returned tt
  /\ downstream (snd passed) = [OnNext (VInt 42); OnNext (VStr (lit "Simple string"))]
  /\ fst (fst stopped)
     = Raised (ValueError
                 (lit "Tag " ++ quoted_tag (lit "html")
                  ++ lit " does not correspond to any known color directive, make sure you did not misspelled it (or prepend '\' to escape it)"))
  /\ downstream (snd stopped) = []
  /\ sink (snd stopped) = [].
Proof. vm_compute. repeat split; reflexivity. Qed.

(** C1 does not hold of the code.  A [ConditionalLogger] with the
    predicate of the notebook's transaction monitor,
    [lambda t: t["amount"] > 1000], receives a transaction that has no
    amount: the predicate's [KeyError] leaves [on_next] after the total
    was incremented, nothing is logged and the value is not forwarded.
    Of the three transactions it is called with, the observer gets the
    first only. *)
Theorem predicate_exception_breaks_passthrough :
  let e := Exc (lit "KeyError") (lit "'amount'") in
  let self := Obj (Some 0%nat)
                (fields (ConditionalLogger.init (lit "HighValueMonitor")
                           (Some high_value) None INFO true)) in
  let w := World (fun _ => float_of_int 0) 0 [] [] in
  let purchase := VDict [(VStr (lit "id"), VInt 2);
                         (VStr (lit "amount"), VInt 1500)] in
  let refund := VDict [(VStr (lit "id"), VInt 3);
                       (VStr (lit "type"), VStr (lit "refund"))] in
  (exists self' w',
     ConditionalLogger.on_next refund self w = (Raised e, self', w')
     /\ downstream w' = []
     /\ sink w' = []
     /\ ConditionalLogger.total_count (fields self') = 1)
  /\ (exists op' w',
        run sample_upper sample_colorizer (Conditional self)
          (List.map OnNext [purchase; refund; purchase]) w
        = (Raised e, op', w')
        /\ downstream w' = [OnNext purchase]).
Proof.
  intros e self w purchase refund.
  split.
  - eexists _, _. split; [reflexivity|]. repeat split; reflexivity.
  - eexists _, _. split; [reflexivity|]. reflexivity.
Qed.

(** In a subscription the exception does not go unseen: reactivex hands
    it to [on_error], so that the observer gets the first transaction
    and then the predicate's error as the end of the stream; the third
    transaction and the completion never reach the operator. *)
Example predicate_exception_ends_subscription :
  let e := Exc (lit "KeyError") (lit "'amount'") in
  let op := Conditional (ConditionalLogger.init (lit "HighValueMonitor")
                           (Some high_value) None INFO true) in
  let w := World (fun _ => float_of_int 0) 0 [] [] in
  let purchase := VDict [(VStr (lit "id"), VInt 2);
                         (VStr (lit "amount"), VInt 1500)] in
  let refund := VDict [(VStr (lit "id"), VInt 3);
                       (VStr (lit "type"), VStr (lit "refund"))] in
  let result := subscribe sample_upper sample_colorizer op
                  (List.map OnNext [purchase; refund; purchase] ++ [OnCompleted])
                  0%nat w in
  fst (fst result) = Returned tt
  /\ downstream (snd result) = [OnNext purchase; OnError e].
Proof. vm_compute. split; reflexivity. Qed.

(** ** Upstream errors *)

(** Where every logging call returns, an upstream error is forwarded:
    an operator that is subscribed, whose state is valid, whose error
    predicate (if it has one) returns and whose message Loguru accepts,
    calls its observer once, with [on_error] and the error object it
    received. *)
Lemma error_forwarded_when_logging_returns (unicode_upper : pychar -> pystr)
    (colorizer : list fragment -> outcome unit)
    (op : operator) (error : pyexc) (w : world) :
  bound op = true ->
  valid op = true ->
  callables_return op (OnError error) = true ->
  markup_accepted colorizer op (OnError error) = true ->
  exists op' w',
    step unicode_upper colorizer op (OnError error) w = (Returned tt, op', w')
    /\ downstream w' = downstream w ++ [OnError error].
Proof.
  intros Hbound Hvalid Hcall Hmarkup.
  destruct (logging op) eqn:Hlog.
  - destruct (step unicode_upper colorizer op (OnError error) w) as [[r op'] w'] eqn:Hstep.
    destruct (logging_step unicode_upper colorizer op (OnError error) w Hlog r op' w' Hstep)
      as (_ & _ & _ & _ & _ & Hr).
    destruct r as [[]|e].
    + exists op', w'. split; [reflexivity|apply Hr].
    + destruct Hr as (Hraise & _).
      rewrite Hbound, Hvalid, Hcall, Hmarkup in Hraise. discriminate.
  - destruct (basis_step unicode_upper colorizer op (OnError error) w Hlog)
      as (delta & Hrun & _ & Hterminal & _).
    rewrite (Hterminal Hbound eq_refl) in Hrun.
    eexists _, _. split; [exact Hrun|reflexivity].
Qed.

(** C5 does not hold of the code.  A [ConditionalLogger] whose error
    predicate reads the attribute [code] of the error,
    [lambda error: error.code >= 500], receives an upstream [ValueError],
    which has no such attribute: the predicate's [AttributeError] leaves
    [on_error], nothing is logged, and the upstream error never reaches
    the observer. *)
Theorem error_predicate_exception_drops_error :
  let upstream := Exc (lit "ValueError") (lit "Cannot process 3") in
  let self := Obj (Some 0%nat)
                (fields (ConditionalLogger.init (lit "Errors")
                           None (Some server_error) INFO true)) in
  let w := World (fun _ => float_of_int 0) 0 [] [] in
  ConditionalLogger.on_error upstream self w
  = (Raised (Exc (lit "AttributeError")
                 (lit "'ValueError' object has no attribute 'code'")),
     self, w)
  /\ downstream w = []
  /\ sink w = [].
Proof.
  intros upstream self w.
  split; [reflexivity|]. split; reflexivity.
Qed.

(** The same with a [RichLoggerOperator] built with [colorize], when
    Loguru does not accept the colour markup of the message, which
    holds the text of the error: the upstream error is not forwarded. *)
Example rich_error_markup :
  let upstream := Exc (lit "ValueError") (lit "bad <tag>") in
  let op := Rich (Obj (Some 0%nat)
                    (fields (RichLoggerOperator.init (lit "Rich") true true))) in
  let w := World (fun _ => float_of_int 0) 0 [] [] in
  let result := step sample_upper sample_colorizer op (OnError upstream) w in
  returns (fst (fst result)) = false
  /\ downstream (snd result) = []
  /\ sink (snd result) = [].
Proof. vm_compute. repeat split; reflexivity. Qed.

(** ** An operator that was never subscribed *)

(** C10.  While [self.observer] is [None], the default [on_error] and
    [on_completed] of [BaseOperator] return without doing anything, and so
    does every method of [SimpleOperator] and [FilteringOperator]; every
    method of a logging operator raises, having called nothing, and what
    it raises is the [AttributeError] of the call on [None] unless
    something raised before the call: one of its callables, an invalid
    state, or Loguru on the colour markup of the message. *)
Theorem unbound_observer (unicode_upper : pychar -> pystr)
    (colorizer : list fragment -> outcome unit)
    (F : Type) (base : obj F) (error : pyexc)
    (op : operator) (n : notification) (w : world) :
  observer base = None ->
  bound op = false ->
  BaseOperator.on_error error base w = (Returned tt, base, w)
  /\ BaseOperator.on_completed base w = (Returned tt, base, w)
  /\ (logging op = false -> step unicode_upper colorizer op n w = (Returned tt, op, w))
  /\ (logging op = true ->
      exists e op' w',
        step unicode_upper colorizer op n w = (Raised e, op', w')
        /\ downstream w' = downstream w
        /\ (valid op = true -> callables_return op n = true ->
            markup_accepted colorizer op n = true ->
            e = AttributeError (method_name n))).
Proof.
  intros Hbase Hunbound.
  split; [|split; [|split]].
  - unfold BaseOperator.on_error, bind, get, ret. now rewrite Hbase.
  - unfold BaseOperator.on_completed, bind, get, ret. now rewrite Hbase.
  - intros Hlog.
    destruct (basis_step unicode_upper colorizer op n w Hlog) as (delta & Hrun & Hnone & _).
    rewrite (Hnone Hunbound), List.app_nil_r in Hrun.
    rewrite Hrun. now destruct w.
  - intros Hlog.
    destruct (step unicode_upper colorizer op n w) as [[r op'] w'] eqn:Hstep.
    destruct (logging_step unicode_upper colorizer op n w Hlog r op' w' Hstep)
      as (_ & _ & _ & _ & _ & Hr).
    destruct r as [[]|e].
    + destruct Hr as [Hbound _]. congruence.
    + exists e, op', w'. split; [reflexivity|]. apply Hr.
Qed.

Lemma unbound_observer_witness :
  let base := BaseOperator.init tt in
  let error := Exc (lit "ValueError") (lit "Cannot process 3") in
  let value := OnNext (VStr (lit "<html>")) in
  let filtering := Filtering (FilteringOperator.init (fun _ => Returned true)) in
  let rich := Rich (RichLoggerOperator.init (lit "Rich") false true) in
  let w := World (fun _ => float_of_int 0) 0 [] [] in
  BaseOperator.on_error error base w = (Returned tt, base, w)
  /\ BaseOperator.on_completed base w = (Returned tt, base, w)
  /\ step sample_upper sample_colorizer filtering value w
     = (Returned tt, filtering, w)
  /\ exists op' w',
       step sample_upper sample_colorizer rich value w
       = (Raised (AttributeError "on_next"), op', w')
       /\ downstream w' = downstream w.
Proof.
  intros base error value filtering rich w.
  destruct (unbound_observer sample_upper sample_colorizer unit base error
              filtering value w eq_refl eq_refl)
    as (Herror & Hcompleted & Hsilent & _).
  destruct (unbound_observer sample_upper sample_colorizer unit base error
              rich value w eq_refl eq_refl)
    as (_ & _ & _ & Hraises).
  destruct (Hraises eq_refl) as (e & op' & w' & Hstep & Hdown & He).
  rewrite (He eq_refl eq_refl eq_refl) in Hstep.
  split; [exact Herror|]. split; [exact Hcompleted|].
  split; [exact (Hsilent eq_refl)|].
  exists op', w'. split; assumption.
Defined.

Example unbound_logger_raises :
  fst (fst (step sample_upper sample_colorizer
              (Rich (RichLoggerOperator.init (lit "Rich") true true))
              OnCompleted (World (fun _ => float_of_int 0) 0 [] [])))
  = Raised (AttributeError "on_completed").
Proof. reflexivity. Qed.

(** Loguru comes before the observer: an unbound [RichLoggerOperator]
    with colours on raises Loguru's [ValueError], not the
    [AttributeError], on a value in angle brackets. *)
Example unbound_rich_logger_markup :
  exc_kind
    (match fst (fst (step sample_upper sample_colorizer
                       (Rich (RichLoggerOperator.init (lit "Rich") true true))
                       (OnNext (VStr (lit "<html>")))
                       (World (fun _ => float_of_int 0) 0 [] []))) with
     | Raised e => e
     | Returned _ => Exc [] []
     end)
  = lit "ValueError".
Proof. reflexivity. Qed.

(** ** Callables that raise *)

(** C3.  When the transform of a subscribed [SimpleOperator], or the
    predicate of a subscribed [FilteringOperator], raises on a value,
    [on_next] returns without raising, and the only call it has made on
    the observer is one [on_error] with the exception raised. *)
Theorem callable_exception_becomes_error
    (simple : obj SimpleOperator.t) (filtering : obj FilteringOperator.t)
    (value : pyval) (e : pyexc) (w : world) :
  observer simple <> None ->
  observer filtering <> None ->
  SimpleOperator.transform_func (fields simple) value = Raised e ->
  FilteringOperator.predicate (fields filtering) value = Raised e ->
  SimpleOperator.on_next value simple w
  = (Returned tt, simple,
     World (clock w) (ticks w) (downstream w ++ [OnError e]) (sink w))
  /\ FilteringOperator.on_next value filtering w
     = (Returned tt, filtering,
        World (clock w) (ticks w) (downstream w ++ [OnError e]) (sink w)).
Proof.
  intros Hsimple Hfiltering Htransform Hpredicate.
  unfold SimpleOperator.on_next, FilteringOperator.on_next,
    try_except, bind, get, call, deliver.
  rewrite Htransform, Hpredicate.
  destruct (observer simple); [|contradiction].
  destruct (observer filtering); [|contradiction].
  split; reflexivity.
Qed.

Lemma callable_exception_becomes_error_witness :
  let e := Exc (lit "ValueError") (lit "Cannot process 3") in
  let simple := Obj (Some 0%nat) (SimpleOperator.Fields (fun _ => Raised e)) in
  let filtering := Obj (Some 0%nat) (FilteringOperator.Fields (fun _ => Raised e)) in
  let w := World (fun _ => float_of_int 0) 0 [OnNext (VInt 1)] [] in
  SimpleOperator.on_next (VInt 3) simple w
  = (Returned tt, simple,
     World (clock w) (ticks w) [OnNext (VInt 1); OnError e] (sink w))
  /\ FilteringOperator.on_next (VInt 3) filtering w
     = (Returned tt, filtering,
        World (clock w) (ticks w) [OnNext (VInt 1); OnError e] (sink w)).
Proof.
  intros e simple filtering w.
  apply (callable_exception_becomes_error simple filtering (VInt 3) e w).
  - discriminate.
  - discriminate.
  - reflexivity.
  - reflexivity.
Defined.

(** A formatter that raises makes [LoggingOperator.on_next] raise: the
    count has been incremented, nothing is logged and the observer is not
    called. *)
Lemma formatter_exception_propagates
    (self : obj LoggingOperator.t) (value : pyval) (e : pyexc) (w : world) :
  LoggingOperator.log_values (fields self) = true ->
  LoggingOperator.value_formatter (fields self) value = Raised e ->
  LoggingOperator.on_next value self w
  = (Raised e,
     Obj (observer self)
         (LoggingOperator.set_count (LoggingOperator.count (fields self) + 1)
                                    (fields self)),
     w).
Proof.
  intros Hlog Hraise.
  unfold LoggingOperator.on_next, bind, get, when, update, modify, call.
  rewrite Hlog. simpl. rewrite Hraise. reflexivity.
Qed.

(** C2 does not hold of the code.  With the formatter of the notebook,
    which reads the attribute [data] of the value, the value
    ["bad_value"] makes [on_next] raise the formatter's [AttributeError]
    and never reaches the observer. *)
Theorem formatter_exception_escapes :
  let e := Exc (lit "AttributeError") (lit "'str' object has no attribute 'data'") in
  let risky_formatter (value : pyval) : outcome pystr :=
    match value with
    | VObject _ _ => Returned (lit "Data: good")
    | _ => Raised e
    end in
  let self := Obj (Some 0%nat)
                (fields (LoggingOperator.init sample_str (lit "Risky")
                           true true true INFO (Some risky_formatter))) in
  let w := World (fun _ => float_of_int 0) 0 [] [] in
  exists self',
    LoggingOperator.on_next (VStr (lit "bad_value")) self w = (Raised e, self', w)
    /\ downstream w = []
    /\ LoggingOperator.count (fields self') = 1.
Proof.
  intros e risky_formatter self w.
  eexists. split; [|split]; reflexivity.
Qed.

(** ** Reset of the performance logger *)

(** The [on_completed] and [on_error] of [StatefulOperator] end with
    [reset_state]: had [PerformanceLogger] inherited them, its fields
    would be back to their initial values. *)
Lemma inherited_terminal_methods_reset
    (self : obj PerformanceLogger.t) (error : pyexc) (w : world) :
  let initial :=
    PerformanceLogger.Fields
      (PerformanceLogger.name (fields self))
      (PerformanceLogger.log_interval (fields self))
      None None [] 0
      (PerformanceLogger.log (fields self)) in
  (exists w', StatefulOperator.on_completed PerformanceLogger.reset_state self w
              = (Returned tt, Obj (observer self) initial, w'))
  /\ (exists w', StatefulOperator.on_error PerformanceLogger.reset_state error self w
                 = (Returned tt, Obj (observer self) initial, w')).
Proof.
  destruct self as [[o|] f]; split; eexists; reflexivity.
Qed.

(** C9 does not hold of the code.  [PerformanceLogger] overrides
    [on_completed] and [on_error] without calling [reset_state]: after
    one value and completion the counter is 1 and the timestamps are
    those of the value, where [reset_state] would give 0 and [None]. *)
Theorem performance_logger_keeps_state :
  let self := PerformanceLogger.init (lit "perf") None in
  let w := World (fun tick => float_of_int (Z.of_nat tick + 5)) 0 [] [] in
  exists after_completion after_error w1 w2,
    subscribe sample_upper sample_colorizer (Performance self)
      [OnNext (VInt 1); OnCompleted] 0%nat w
    = (Returned tt, Performance after_completion, w1)
    /\ subscribe sample_upper sample_colorizer (Performance self)
         [OnNext (VInt 1); OnError (ZeroDivisionError "division by zero")] 0%nat w
       = (Returned tt, Performance after_error, w2)
    /\ after_error = after_completion
    /\ PerformanceLogger.count (fields after_completion) = 1
    /\ PerformanceLogger.start_time (fields after_completion) = Some (float_of_int 5)
    /\ PerformanceLogger.last_time (fields after_completion) = Some (float_of_int 5)
    /\ (exists reset w',
          PerformanceLogger.reset_state after_completion w1 = (Returned tt, reset, w')
          /\ PerformanceLogger.count (fields reset) = 0
          /\ PerformanceLogger.start_time (fields reset) = None
          /\ PerformanceLogger.last_time (fields reset) = None).
Proof.
  intros self w.
  eexists _, _, _, _.
  split; [reflexivity|]. split; [reflexivity|]. split; [reflexivity|].
  split; [reflexivity|]. split; [reflexivity|]. split; [reflexivity|].
  eexists _, _. repeat split; reflexivity.
Qed.

(** ** Terminal notifications *)

Lemma rx_grammar_after_value (n : notification) (ns : list notification) :
  is_terminal n = false -> rx_grammar (n :: ns) = rx_grammar ns.
Proof. intros Hn. simpl. now rewrite Hn. Qed.




(** ** The counts of the conditional logger *)





(* ================================================================== *)
(** * Further properties of the code *)
(* ================================================================== *)

(** ** SimpleOperator and FilteringOperator on a whole source *)

Lemma world_unchanged (w : world) :
  World (clock w) (ticks w) (downstream w ++ []) (sink w) = w.
Proof. destruct w. simpl. now rewrite List.app_nil_r. Qed.

Lemma simple_run (unicode_upper : pychar -> pystr)
    (colorizer : list fragment -> outcome unit)
    (transform_func : pyval -> outcome pyval) (o : Observer)
    (source : list notification) :
  forall w,
    run unicode_upper colorizer
      (Simple (Obj (Some o) (SimpleOperator.Fields transform_func))) source w
    = (Returned tt,
       Simple (Obj (Some o) (SimpleOperator.Fields transform_func)),
       World (clock w) (ticks w)
         (downstream w ++ List.map (simple_answer transform_func) source)
         (sink w)).
Proof.
  induction source as [|n rest IH]; intros w.
  - simpl. now rewrite world_unchanged.
  - destruct n as [value|error|];
      cbn [run step dispatch SimpleOperator.methods h_next h_error h_completed];
      unfold SimpleOperator.on_next, BaseOperator.on_error,
        BaseOperator.on_completed, try_except, bind, get, call, deliver, ret;
      cbn [observer fields SimpleOperator.transform_func simple_answer List.map];
      try destruct (transform_func value) as [transformed|e];
      cbn [lift observer fields]; rewrite IH; cbn [clock ticks downstream sink];
      rewrite <- List.app_assoc; reflexivity.
Qed.

(** X2.  A [SimpleOperator] answers every notification it receives with
    exactly one call on its observer: the transformed value, or
    [on_error] with the exception of the transform when it raises, or
    the terminal notification itself.  It never raises, logs nothing,
    and goes on after an error.  Subscribed to a source, it receives
    what the source pushes up to its first terminal notification; called
    directly, it answers whatever it is called with, also after a
    terminal notification. *)
Theorem simple_operator_answers_each_notification
    (unicode_upper : pychar -> pystr)
    (colorizer : list fragment -> outcome unit)
    (transform_func : pyval -> outcome pyval)
    (source : list notification) (o : Observer) (w : world) :
  subscribe unicode_upper colorizer (Simple (SimpleOperator.init transform_func)) source o w
  = (Returned tt,
     Simple (Obj (Some o) (SimpleOperator.Fields transform_func)),
     World (clock w) (ticks w)
       (downstream w
        ++ List.map (simple_answer transform_func) (until_terminal source))
       (sink w))
  /\ run unicode_upper colorizer
       (Simple (Obj (Some o) (SimpleOperator.Fields transform_func))) source w
     = (Returned tt,
        Simple (Obj (Some o) (SimpleOperator.Fields transform_func)),
        World (clock w) (ticks w)
          (downstream w ++ List.map (simple_answer transform_func) source)
          (sink w)).
Proof.
  split; [|apply simple_run].
  apply subscribe_returns.
  cbn [with_observer SimpleOperator.init BaseOperator.init fields].
  apply simple_run.
Qed.

Lemma filtering_run (unicode_upper : pychar -> pystr)
    (colorizer : list fragment -> outcome unit)
    (predicate : pyval -> outcome bool) (o : Observer)
    (source : list notification) :
  forall w,
    run unicode_upper colorizer
      (Filtering (Obj (Some o) (FilteringOperator.Fields predicate))) source w
    = (Returned tt,
       Filtering (Obj (Some o) (FilteringOperator.Fields predicate)),
       World (clock w) (ticks w)
         (downstream w ++ List.flat_map (filtering_answer predicate) source)
         (sink w)).
Proof.
  induction source as [|n rest IH]; intros w.
  - simpl. now rewrite world_unchanged.
  - destruct n as [value|error|];
      cbn [run step dispatch FilteringOperator.methods h_next h_error h_completed];
      unfold FilteringOperator.on_next, BaseOperator.on_error,
        BaseOperator.on_completed, try_except, bind, get, call, deliver, ret;
      cbn [observer fields FilteringOperator.predicate filtering_answer
           List.flat_map];
      try destruct (predicate value) as [[|]|e];
      cbn [lift observer fields]; rewrite IH; cbn [clock ticks downstream sink List.app];
      rewrite <- ?List.app_assoc; rewrite ?List.app_nil_r; reflexivity.
Qed.

(** Called with values on which its predicate returns and then with
    terminal notifications, a bound [FilteringOperator] delivers the
    values accepted and then the terminal notifications. *)
Lemma filtering_values_run (unicode_upper : pychar -> pystr)
    (colorizer : list fragment -> outcome unit)
    (predicate : pyval -> outcome bool) (accepts : pyval -> bool)
    (values : list pyval) (rest : list notification)
    (o : Observer) (w : world) :
  (forall value, List.In value values -> predicate value = Returned (accepts value)) ->
  List.forallb is_terminal rest = true ->
  run unicode_upper colorizer
    (Filtering (Obj (Some o) (FilteringOperator.Fields predicate)))
    (List.map OnNext values ++ rest) w
  = (Returned tt,
     Filtering (Obj (Some o) (FilteringOperator.Fields predicate)),
     World (clock w) (ticks w)
       (downstream w ++ List.map OnNext (List.filter accepts values) ++ rest)
       (sink w)).
Proof.
  intros Hpredicate Hrest.
  rewrite filtering_run, List.flat_map_app.
  assert (Hvalues : List.flat_map (filtering_answer predicate) (List.map OnNext values)
                    = List.map OnNext (List.filter accepts values)).
  { induction values as [|value values IH]; [reflexivity|].
    cbn [List.map List.flat_map filtering_answer List.filter].
    rewrite (Hpredicate value (or_introl eq_refl)), IH.
    - now destruct (accepts value).
    - intros v Hv. apply Hpredicate. now right. }
  assert (Hterminal : List.flat_map (filtering_answer predicate) rest = rest).
  { clear Hpredicate Hvalues. induction rest as [|n rest IH]; [reflexivity|].
    simpl in Hrest. apply andb_true_iff in Hrest as [Hn Hrest].
    cbn [List.flat_map]. rewrite (IH Hrest).
    destruct n; [discriminate Hn|reflexivity|reflexivity]. }
  now rewrite Hvalues, Hterminal.
Qed.

(** X3.  A [FilteringOperator] whose predicate returns on every value
    it receives delivers the values the predicate accepts, in the order
    received and unchanged, followed by the terminal notifications it
    receives; the values it rejects leave no trace.  Subscribed to a
    source it receives at most one terminal notification, the first of
    the source; called directly it forwards every one it is called
    with. *)
Theorem filtering_operator_keeps_accepted_values
    (unicode_upper : pychar -> pystr)
    (colorizer : list fragment -> outcome unit)
    (predicate : pyval -> outcome bool) (accepts : pyval -> bool)
    (values : list pyval) (rest : list notification)
    (o : Observer) (w : world) :
  (forall value, List.In value values -> predicate value = Returned (accepts value)) ->
  List.forallb is_terminal rest = true ->
  subscribe unicode_upper colorizer (Filtering (FilteringOperator.init predicate))
    (List.map OnNext values ++ rest) o w
  = (Returned tt,
     Filtering (Obj (Some o) (FilteringOperator.Fields predicate)),
     World (clock w) (ticks w)
       (downstream w ++ List.map OnNext (List.filter accepts values)
        ++ List.firstn 1 rest)
       (sink w))
  /\ run unicode_upper colorizer
       (Filtering (Obj (Some o) (FilteringOperator.Fields predicate)))
       (List.map OnNext values ++ rest) w
     = (Returned tt,
        Filtering (Obj (Some o) (FilteringOperator.Fields predicate)),
        World (clock w) (ticks w)
          (downstream w ++ List.map OnNext (List.filter accepts values) ++ rest)
          (sink w)).
Proof.
  intros Hpredicate Hrest.
  split; [|now apply filtering_values_run].
  apply subscribe_returns. rewrite until_terminal_values.
  assert (Hfirst : until_terminal rest = List.firstn 1 rest).
  { destruct rest as [|n rest]; [reflexivity|].
    cbn [List.forallb] in Hrest. apply andb_true_iff in Hrest as [Hn _].
    cbn [until_terminal List.firstn]. now rewrite Hn. }
  rewrite Hfirst.
  cbn [with_observer FilteringOperator.init BaseOperator.init fields].
  apply filtering_values_run; [assumption|].
  destruct rest as [|n rest]; [reflexivity|].
  cbn [List.forallb] in Hrest. apply andb_true_iff in Hrest as [Hn _].
  cbn [List.firstn List.forallb]. now rewrite Hn.
Qed.

Lemma filtering_operator_keeps_accepted_values_witness :
  let over_five (value : pyval) : bool :=
    match value with VInt z => 5 <? z | _ => false end in
  let predicate (value : pyval) : outcome bool := Returned (over_five value) in
  let values := [VInt 6; VInt 2; VInt 8] in
  let w := World (fun _ => float_of_int 0) 0 [] [] in
  subscribe sample_upper sample_colorizer
    (Filtering (FilteringOperator.init predicate))
    (List.map OnNext values ++ [OnCompleted]) 0%nat w
  = (Returned tt,
     Filtering (Obj (Some 0%nat) (FilteringOperator.Fields predicate)),
     World (clock w) (ticks w)
       (downstream w ++ List.map OnNext (List.filter over_five values)
        ++ List.firstn 1 [OnCompleted])
       (sink w))
  /\ run sample_upper sample_colorizer
       (Filtering (Obj (Some 0%nat) (FilteringOperator.Fields predicate)))
       (List.map OnNext values ++ [OnCompleted]) w
     = (Returned tt,
        Filtering (Obj (Some 0%nat) (FilteringOperator.Fields predicate)),
        World (clock w) (ticks w)
          (downstream w ++ List.map OnNext (List.filter over_five values)
           ++ [OnCompleted])
          (sink w)).
Proof.
  intros over_five predicate values w.
  apply (filtering_operator_keeps_accepted_values sample_upper sample_colorizer
           predicate over_five values [OnCompleted] 0%nat w).
  - intros value _. reflexivity.
  - reflexivity.
Defined.

(** ** The count and the records of LoggingOperator *)

(** The record that [LoggingOperator.on_completed] logs at a given count. *)
Lemma logging_on_completed (f : LoggingOperator.t) (o : Observer) (w : world) :
  LoggingOperator.on_completed (Obj (Some o) f) w
  = (Returned tt, Obj (Some o) f,
     World (clock w) (ticks w) (downstream w ++ [OnCompleted])
       (sink w
        ++ (if LoggingOperator.log_completion f
            then [plain INFO
                    [Text (lit "["); Text (LoggingOperator.prefix f);
                     Text (lit "] Completed after ");
                     Int (LoggingOperator.count f); Text (lit " values")]]
            else []))).
Proof.
  unfold LoggingOperator.on_completed, bind, get, when, ret, emit_log,
    observer_call, deliver.
  cbn [fields observer].
  destruct (LoggingOperator.log_completion f); cbn [clock ticks downstream sink];
    [reflexivity|].
  now rewrite List.app_nil_r.
Qed.

Lemma logging_values_run (unicode_upper : pychar -> pystr)
    (colorizer : list fragment -> outcome unit) (o : Observer)
    (rest : list notification) (values : list pyval) :
  forall (f : LoggingOperator.t) (w : world),
    LoggingOperator.log_values f = true ->
    (forall value, List.In value values ->
                   returns (LoggingOperator.value_formatter f value) = true) ->
    exists records,
      run unicode_upper colorizer (Logging (Obj (Some o) f)) (List.map OnNext values ++ rest) w
      = run unicode_upper colorizer
          (Logging (Obj (Some o)
                      (LoggingOperator.set_count
                         (LoggingOperator.count f + Z.of_nat (List.length values)) f)))
          rest
          (World (clock w) (ticks w) (downstream w ++ List.map OnNext values)
             (sink w ++ records))
      /\ List.length records = List.length values
      /\ forall k value,
           List.nth_error values k = Some value ->
           exists text,
             LoggingOperator.value_formatter f value = Returned text
             /\ List.nth_error records k
                = Some (plain (LoggingOperator.log_level f)
                          [Text (lit "["); Text (LoggingOperator.prefix f);
                           Text (lit "] [");
                           Int (LoggingOperator.count f + Z.of_nat k + 1);
                           Text (lit "] Value: "); Text text]).
Proof.
  induction values as [|value values IH]; intros f w Hlog Hformat.
  - exists []. split; [|split].
    + destruct f. simpl. rewrite Z.add_0_r, !List.app_nil_r. now destruct w.
    + reflexivity.
    + intros [|k] v Hv; discriminate Hv.
  - destruct f as [prefix log_values log_errors log_completion level formatter count].
    cbn [LoggingOperator.log_values LoggingOperator.value_formatter
         LoggingOperator.count LoggingOperator.prefix LoggingOperator.log_level
         LoggingOperator.set_count] in *.
    subst log_values.
    pose proof (Hformat value (or_introl eq_refl)) as Hvalue.
    destruct (formatter value) as [text|e] eqn:Htext; [|discriminate Hvalue].
    destruct (IH (LoggingOperator.Fields prefix true log_errors log_completion
                    level formatter (count + 1))
                (World (clock w) (ticks w) (downstream w ++ [OnNext value])
                   (sink w
                    ++ [plain level
                          [Text (lit "["); Text prefix; Text (lit "] [");
                           Int (count + 1); Text (lit "] Value: "); Text text]]))
                eq_refl)
      as (records & Hrun & Hlen & Hrecords).
    { intros v Hv. apply Hformat. now right. }
    cbn [LoggingOperator.log_values LoggingOperator.value_formatter
         LoggingOperator.count LoggingOperator.prefix LoggingOperator.log_level
         LoggingOperator.set_count] in *.
    eexists (_ :: records). split; [|split].
    + cbn [List.map List.app run step dispatch LoggingOperator.methods h_next].
      unfold LoggingOperator.on_next, observer_call, update, when, bind, get,
        raise, modify, call, emit_log, deliver.
      cbn [fields observer LoggingOperator.set_count LoggingOperator.log_values
           LoggingOperator.log_errors LoggingOperator.log_completion
           LoggingOperator.value_formatter LoggingOperator.count
           LoggingOperator.prefix LoggingOperator.log_level].
      rewrite Htext.
      cbn [lift fields observer clock ticks downstream sink
           LoggingOperator.set_count LoggingOperator.log_values
           LoggingOperator.log_errors LoggingOperator.log_completion
           LoggingOperator.value_formatter LoggingOperator.count
           LoggingOperator.prefix LoggingOperator.log_level].
      unfold LoggingOperator.set_count in *.
      cbn [LoggingOperator.log_values LoggingOperator.log_errors
           LoggingOperator.log_completion LoggingOperator.value_formatter
           LoggingOperator.count LoggingOperator.prefix
           LoggingOperator.log_level] in *.
      rewrite Hrun. cbn [clock ticks downstream sink].
      replace (count + 1 + Z.of_nat (List.length values))
        with (count + Z.of_nat (List.length (value :: values)))
        by (simpl List.length; lia).
      rewrite <- !List.app_assoc. reflexivity.
    + simpl. now rewrite Hlen.
    + intros [|k] v Hv.
      * injection Hv as <-. exists text. split; [assumption|].
        simpl. now rewrite Z.add_0_r.
      * destruct (Hrecords k v Hv) as (text' & Htext' & Hrecord).
        exists text'. split; [assumption|].
        simpl List.nth_error. rewrite Hrecord.
        replace (count + Z.of_nat (S k) + 1) with (count + 1 + Z.of_nat k + 1)
          by lia.
        reflexivity.
Qed.

(** X1.  A [LoggingOperator] with [log_values] set, whatever its count
    and its observer so far, subscribed to a source that pushes N values
    on which its formatter returns and then completes: it forwards
    everything, logs for the k-th value a record that numbers it
    [count + k] and carries the formatted text, ends with its count
    raised by N, and (with [log_completion]) logs
    ["Completed after <count + N> values"]. *)
Theorem logging_operator_counts_values (unicode_upper : pychar -> pystr)
    (colorizer : list fragment -> outcome unit)
    (f : LoggingOperator.t) (old : option Observer) (values : list pyval)
    (o : Observer) (w : world) :
  LoggingOperator.log_values f = true ->
  (forall value, List.In value values ->
                 returns (LoggingOperator.value_formatter f value) = true) ->
  let total := LoggingOperator.count f + Z.of_nat (List.length values) in
  exists records,
    subscribe unicode_upper colorizer (Logging (Obj old f))
      (List.map OnNext values ++ [OnCompleted]) o w
    = (Returned tt,
       Logging (Obj (Some o) (LoggingOperator.set_count total f)),
       World (clock w) (ticks w)
         (downstream w ++ List.map OnNext values ++ [OnCompleted])
         (sink w ++ records
          ++ (if LoggingOperator.log_completion f
              then [plain INFO
                      [Text (lit "["); Text (LoggingOperator.prefix f);
                       Text (lit "] Completed after "); Int total;
                       Text (lit " values")]]
              else [])))
    /\ List.length records = List.length values
    /\ forall k value,
         List.nth_error values k = Some value ->
         exists text,
           LoggingOperator.value_formatter f value = Returned text
           /\ List.nth_error records k
              = Some (plain (LoggingOperator.log_level f)
                        [Text (lit "["); Text (LoggingOperator.prefix f);
                         Text (lit "] [");
                         Int (LoggingOperator.count f + Z.of_nat k + 1);
                         Text (lit "] Value: "); Text text]).
Proof.
  intros Hlog Hformat total.
  destruct (logging_values_run unicode_upper colorizer o [OnCompleted] values f w Hlog Hformat)
    as (records & Hrun & Hlen & Hrecords).
  exists records. split; [|split; assumption].
  apply subscribe_returns. rewrite until_terminal_values.
  cbn [until_terminal is_terminal].
  cbn [with_observer fields]. rewrite Hrun. fold total.
  cbn [run step dispatch LoggingOperator.methods h_completed].
  rewrite logging_on_completed. cbn [lift clock ticks downstream sink].
  destruct f; cbn [LoggingOperator.set_count LoggingOperator.log_completion
                   LoggingOperator.prefix LoggingOperator.count].
  now rewrite <- !List.app_assoc.
Qed.

Lemma logging_operator_counts_values_witness :
  let f := fields (LoggingOperator.init sample_str (lit "RxLog")
                     true true true INFO None) in
  let values := [VInt 7; VStr (lit "seven")] in
  let w := World (fun _ => float_of_int 0) 0 [] [] in
  exists records,
    subscribe sample_upper sample_colorizer (Logging (Obj None f))
      (List.map OnNext values ++ [OnCompleted]) 0%nat w
    = (Returned tt,
       Logging (Obj (Some 0%nat) (LoggingOperator.set_count 2 f)),
       World (clock w) (ticks w)
         (downstream w ++ List.map OnNext values ++ [OnCompleted])
         (sink w ++ records
          ++ [plain INFO
                [Text (lit "["); Text (lit "RxLog");
                 Text (lit "] Completed after "); Int 2; Text (lit " values")]]))
    /\ List.length records = 2%nat
    /\ forall k value,
         List.nth_error values k = Some value ->
         exists text,
           LoggingOperator.value_formatter f value = Returned text
           /\ List.nth_error records k
              = Some (plain INFO
                        [Text (lit "["); Text (lit "RxLog"); Text (lit "] [");
                         Int (0 + Z.of_nat k + 1);
                         Text (lit "] Value: "); Text text]).
Proof.
  intros f values w.
  apply (logging_operator_counts_values sample_upper sample_colorizer f None values 0%nat w).
  - reflexivity.
  - intros value _. reflexivity.
Defined.

Lemma logging_silent_run (unicode_upper : pychar -> pystr)
    (colorizer : list fragment -> outcome unit) (o : Observer)
    (f : LoggingOperator.t) (rest : list notification) (values : list pyval) :
  LoggingOperator.log_values f = false ->
  forall w,
    run unicode_upper colorizer (Logging (Obj (Some o) f)) (List.map OnNext values ++ rest) w
    = run unicode_upper colorizer (Logging (Obj (Some o) f)) rest
        (World (clock w) (ticks w) (downstream w ++ List.map OnNext values) (sink w)).
Proof.
  intros Hlog. induction values as [|value values IH]; intros w.
  - simpl. now rewrite world_unchanged.
  - cbn [List.map List.app run step dispatch LoggingOperator.methods h_next].
    unfold LoggingOperator.on_next, observer_call, when, bind, get, ret, deliver.
    cbn [fields observer]. rewrite Hlog. cbn [lift fields observer].
    rewrite IH. cbn [clock ticks downstream sink].
    now rewrite <- List.app_assoc.
Qed.

(** X4.  With [log_values] off, a [LoggingOperator] never calls its
    formatter and never counts: it forwards the values with no record,
    whatever the formatter would do on them, and its completion record
    gives the count as it was before them (0 for a new instance). *)
Theorem logging_operator_without_value_logs (unicode_upper : pychar -> pystr)
    (colorizer : list fragment -> outcome unit)
    (f : LoggingOperator.t) (old : option Observer) (values : list pyval)
    (o : Observer) (w : world) :
  LoggingOperator.log_values f = false ->
  subscribe unicode_upper colorizer (Logging (Obj old f))
    (List.map OnNext values ++ [OnCompleted]) o w
  = (Returned tt, Logging (Obj (Some o) f),
     World (clock w) (ticks w)
       (downstream w ++ List.map OnNext values ++ [OnCompleted])
       (sink w
        ++ (if LoggingOperator.log_completion f
            then [plain INFO
                    [Text (lit "["); Text (LoggingOperator.prefix f);
                     Text (lit "] Completed after ");
                     Int (LoggingOperator.count f); Text (lit " values")]]
            else []))).
Proof.
  intros Hlog.
  apply subscribe_returns. rewrite until_terminal_values.
  cbn [until_terminal is_terminal].
  cbn [with_observer fields].
  rewrite (logging_silent_run unicode_upper colorizer o f [OnCompleted] values Hlog).
  cbn [run step dispatch LoggingOperator.methods h_completed].
  rewrite logging_on_completed. cbn [lift clock ticks downstream sink].
  now rewrite <- List.app_assoc.
Qed.

Lemma logging_operator_without_value_logs_witness :
  let raising (value : pyval) : outcome pystr :=
    Raised (TypeError "cannot format") in
  let f := fields (LoggingOperator.init sample_str (lit "Quiet")
                     false true true INFO (Some raising)) in
  let values := [VInt 1; VInt 2; VInt 3] in
  let w := World (fun _ => float_of_int 0) 0 [] [] in
  subscribe sample_upper sample_colorizer (Logging (Obj None f))
    (List.map OnNext values ++ [OnCompleted]) 0%nat w
  = (Returned tt, Logging (Obj (Some 0%nat) f),
     World (clock w) (ticks w)
       (downstream w ++ List.map OnNext values ++ [OnCompleted])
       (sink w
        ++ [plain INFO
              [Text (lit "["); Text (lit "Quiet");
               Text (lit "] Completed after "); Int 0; Text (lit " values")]])).
Proof.
  intros raising f values w.
  apply (logging_operator_without_value_logs sample_upper sample_colorizer f None values 0%nat w).
  reflexivity.
Defined.

Lemma logging_counting_subscription (unicode_upper : pychar -> pystr)
    (colorizer : list fragment -> outcome unit)
    (f : LoggingOperator.t) (old : option Observer) (values : list pyval)
    (o : Observer) (w : world) :
  LoggingOperator.log_values f = true ->
  LoggingOperator.log_completion f = true ->
  (forall value, List.In value values ->
                 returns (LoggingOperator.value_formatter f value) = true) ->
  let total := LoggingOperator.count f + Z.of_nat (List.length values) in
  exists records,
    subscribe unicode_upper colorizer (Logging (Obj old f))
      (List.map OnNext values ++ [OnCompleted]) o w
    = (Returned tt,
       Logging (Obj (Some o) (LoggingOperator.set_count total f)),
       World (clock w) (ticks w)
         (downstream w ++ List.map OnNext values ++ [OnCompleted])
         ((sink w ++ records)
          ++ [plain INFO
                [Text (lit "["); Text (LoggingOperator.prefix f);
                 Text (lit "] Completed after "); Int total;
                 Text (lit " values")]])).
Proof.
  intros Hlog Hcompletion Hformat total.
  destruct (logging_values_run unicode_upper colorizer o [OnCompleted] values f w Hlog Hformat)
    as (records & Hrun & _).
  exists records.
  apply subscribe_returns. rewrite until_terminal_values.
  cbn [until_terminal is_terminal].
  cbn [with_observer fields]. rewrite Hrun. fold total.
  cbn [run step dispatch LoggingOperator.methods h_completed].
  rewrite logging_on_completed. cbn [lift clock ticks downstream sink].
  destruct f; cbn [LoggingOperator.set_count LoggingOperator.log_completion
                   LoggingOperator.prefix LoggingOperator.count] in *.
  subst. now rewrite <- !List.app_assoc.
Qed.

(** X5.  The count of a [LoggingOperator] is never reset: when one
    instance (here a new one with the default formatter) is subscribed a
    second time, the completion record of the second subscription counts
    the values of both. *)
Theorem logging_count_spans_subscriptions (unicode_upper : pychar -> pystr)
    (colorizer : list fragment -> outcome unit)
    (py_str : pyval -> pystr) (prefix : pystr) (lvl : level)
    (first second : list pyval) (o1 o2 : Observer) (w : world) :
  let op := Logging (LoggingOperator.init py_str prefix true true true lvl None) in
  let completed (n : nat) :=
    plain INFO [Text (lit "["); Text prefix; Text (lit "] Completed after ");
                Int (Z.of_nat n); Text (lit " values")] in
  exists op1 w1 op2 w2,
    subscribe unicode_upper colorizer op (List.map OnNext first ++ [OnCompleted]) o1 w
    = (Returned tt, op1, w1)
    /\ subscribe unicode_upper colorizer op1 (List.map OnNext second ++ [OnCompleted]) o2 w1
       = (Returned tt, op2, w2)
    /\ List.last (sink w1) (plain INFO []) = completed (List.length first)
    /\ List.last (sink w2) (plain INFO [])
       = completed (List.length first + List.length second)%nat.
Proof.
  intros op completed. unfold op, LoggingOperator.init, BaseOperator.init.
  set (f := LoggingOperator.Fields prefix true true true lvl
              (fun value => Returned (LoggingOperator._default_format_value py_str value))
              0).
  destruct (logging_counting_subscription unicode_upper colorizer f None first o1 w
              eq_refl eq_refl)
    as (records1 & Hfirst); [reflexivity|].
  destruct (logging_counting_subscription unicode_upper colorizer
              (LoggingOperator.set_count
                 (LoggingOperator.count f + Z.of_nat (List.length first)) f)
              (Some o1) second o2
              (World (clock w) (ticks w)
                 (downstream w ++ List.map OnNext first ++ [OnCompleted])
                 ((sink w ++ records1)
                  ++ [plain INFO
                        [Text (lit "["); Text (LoggingOperator.prefix f);
                         Text (lit "] Completed after ");
                         Int (LoggingOperator.count f
                              + Z.of_nat (List.length first));
                         Text (lit " values")]]))
              eq_refl eq_refl)
    as (records2 & Hsecond); [reflexivity|].
  eexists _, _, _, _.
  split; [exact Hfirst|]. split; [exact Hsecond|].
  cbn [sink]. rewrite !List.last_last. unfold completed, f.
  cbn [LoggingOperator.set_count LoggingOperator.count LoggingOperator.prefix].
  split; [reflexivity|].
  replace (Z.of_nat (List.length first + List.length second))
    with (0 + Z.of_nat (List.length first) + Z.of_nat (List.length second))
    by lia.
  reflexivity.
Qed.

(** ** The marble timeline at its edges *)

(** X6.  While fewer events than the width have been recorded, the line
    has the symbols of all the events, in order, from its left end, and
    dashes up to the width. *)
Theorem marble_line_pads_with_dashes (unicode_upper : pychar -> pystr)
    (width : Z) (timeline : list MarbleLogger.event) :
  0 < width ->
  Z.of_nat (List.length timeline) <= width ->
  exists timeline_chars,
    MarbleLogger.cells unicode_upper width timeline = Returned timeline_chars
    /\ timeline_chars
       = List.map (MarbleLogger.symbol unicode_upper) timeline
         ++ List.repeat (lit "-") (Z.to_nat width - List.length timeline)
    /\ List.length timeline_chars = Z.to_nat width.
Proof.
  intros Hwidth Hroom. eexists. split; [apply cells_window; assumption|].
  replace (List.length timeline - Z.to_nat width)%nat with 0%nat by lia.
  cbn [List.skipn]. split; [reflexivity|].
  rewrite List.length_app, List.length_map, List.repeat_length. lia.
Qed.

Lemma marble_line_pads_with_dashes_witness :
  exists timeline_chars,
    MarbleLogger.cells sample_upper 4
      [MarbleLogger.N (VInt 1); MarbleLogger.N (VStr (lit "ab"))]
    = Returned timeline_chars
    /\ timeline_chars
       = List.map (MarbleLogger.symbol sample_upper)
           [MarbleLogger.N (VInt 1); MarbleLogger.N (VStr (lit "ab"))]
         ++ List.repeat (lit "-") (Z.to_nat 4 - 2)
    /\ List.length timeline_chars = Z.to_nat 4.
Proof.
  apply (marble_line_pads_with_dashes sample_upper 4
           [MarbleLogger.N (VInt 1); MarbleLogger.N (VStr (lit "ab"))]).
  - lia.
  - simpl. lia.
Defined.

Lemma cells_width_zero (unicode_upper : pychar -> pystr)
    (timeline : list MarbleLogger.event) (ev : MarbleLogger.event) :
  MarbleLogger.cells unicode_upper 0 (timeline ++ [ev])
  = Raised (ZeroDivisionError "integer modulo by zero").
Proof.
  unfold MarbleLogger.cells, slice_from.
  cbn [Z.opp Z.ltb Z.compare Z.min Z.to_nat List.skipn].
  replace (Z.to_nat (Z.min (Z.of_nat (List.length (timeline ++ [ev]))) 0))
    with 0%nat by lia.
  cbn [List.skipn]. now destruct timeline.
Qed.

(** X7.  A [MarbleLogger] of width 0 raises [ZeroDivisionError] on every
    notification: the event has been added to the timeline, but nothing
    is logged and the notification is not forwarded. *)
Theorem marble_width_zero_raises (unicode_upper : pychar -> pystr)
    (colorizer : list fragment -> outcome unit)
    (self : obj MarbleLogger.t) (n : notification) (w : world) :
  MarbleLogger.width (fields self) = 0 ->
  step unicode_upper colorizer (Marble self) n w
  = (Raised (ZeroDivisionError "integer modulo by zero"),
     Marble (Obj (observer self)
               (MarbleLogger.Fields (MarbleLogger.name (fields self)) 0
                  (MarbleLogger.timeline (fields self) ++ [marble_event n]))),
     w).
Proof.
  intros Hwidth. destruct self as [obs [name width timeline]].
  cbn [fields MarbleLogger.width] in Hwidth. subst width.
  destruct n as [value|error|];
    cbn [step dispatch MarbleLogger.methods h_next h_error h_completed];
    unfold MarbleLogger.on_next, MarbleLogger.on_error, MarbleLogger.on_completed,
      MarbleLogger.append, MarbleLogger._print_timeline, observer_call, update,
      bind, get, modify, call;
    cbn [fields observer MarbleLogger.width MarbleLogger.timeline
         MarbleLogger.name marble_event];
    rewrite cells_width_zero; reflexivity.
Qed.

Lemma marble_width_zero_raises_witness :
  let self := MarbleLogger.init (lit "Source") 0 in
  let w := World (fun _ => float_of_int 0) 0 [] [] in
  step sample_upper sample_colorizer (Marble self) (OnNext (VInt 1)) w
  = (Raised (ZeroDivisionError "integer modulo by zero"),
     Marble (Obj None (MarbleLogger.Fields (lit "Source") 0
                         [MarbleLogger.N (VInt 1)])),
     w).
Proof.
  intros self w.
  apply (marble_width_zero_raises sample_upper sample_colorizer self (OnNext (VInt 1)) w).
  reflexivity.
Defined.

(** X8.  With a negative width the line is empty as long as no more than
    [-width] events are recorded; from the next event on, writing the
    first symbol is an [IndexError]. *)
Theorem marble_negative_width (unicode_upper : pychar -> pystr)
    (width : Z) (timeline : list MarbleLogger.event) :
  width < 0 ->
  MarbleLogger.cells unicode_upper width timeline
  = if Z.of_nat (List.length timeline) <=? - width
    then Returned []
    else Raised IndexError.
Proof.
  intros Hneg. unfold MarbleLogger.cells, slice_from.
  replace (- width <? 0) with false by (symmetry; apply Z.ltb_ge; lia).
  replace (Z.to_nat width) with 0%nat by lia.
  cbn [List.repeat].
  destruct (Z.of_nat (List.length timeline) <=? - width) eqn:Hfew.
  - apply Z.leb_le in Hfew.
    rewrite List.skipn_all2 by lia. reflexivity.
  - apply Z.leb_gt in Hfew.
    destruct (List.skipn (Z.to_nat (Z.min (Z.of_nat (List.length timeline)) (- width)))
                         timeline) as [|ev recent] eqn:Hrecent.
    + apply (f_equal (@List.length _)) in Hrecent.
      rewrite List.length_skipn in Hrecent. simpl in Hrecent. lia.
    + cbn [MarbleLogger.place].
      replace (width =? 0) with false by (symmetry; apply Z.eqb_neq; lia).
      unfold setitem. cbn [List.length Z.of_nat].
      replace ((0 <=? 0 mod width) && (0 mod width <? 0)) with false
        by (symmetry; apply andb_false_iff; right; apply Z.ltb_ge;
            rewrite Z.mod_0_l by lia; lia).
      replace ((- 0 <=? 0 mod width) && (0 mod width <? 0)) with false
        by (symmetry; apply andb_false_iff; right; apply Z.ltb_ge;
            rewrite Z.mod_0_l by lia; lia).
      reflexivity.
Qed.

Lemma marble_negative_width_witness :
  MarbleLogger.cells sample_upper (-1)
    [MarbleLogger.N (VInt 1); MarbleLogger.N (VInt 2)]
  = if Z.of_nat 2 <=? - (-1) then Returned [] else Raised IndexError.
Proof.
  apply (marble_negative_width sample_upper (-1)
           [MarbleLogger.N (VInt 1); MarbleLogger.N (VInt 2)]).
  lia.
Defined.

Lemma marble_step (unicode_upper : pychar -> pystr)
    (colorizer : list fragment -> outcome unit)
    (name : pystr) (width : Z) (timeline : list MarbleLogger.event)
    (o : Observer) (n : notification) (w : world) :
  0 < width ->
  exists record,
    step unicode_upper colorizer (Marble (Obj (Some o) (MarbleLogger.Fields name width timeline)))
      n w
    = (Returned tt,
       Marble (Obj (Some o)
                 (MarbleLogger.Fields name width (timeline ++ [marble_event n]))),
       World (clock w) (ticks w) (downstream w ++ [n]) (sink w ++ [record])).
Proof.
  intros Hwidth.
  destruct n as [value|error|];
    cbn [step dispatch MarbleLogger.methods h_next h_error h_completed];
    unfold MarbleLogger.on_next, MarbleLogger.on_error, MarbleLogger.on_completed,
      MarbleLogger.append, MarbleLogger._print_timeline, observer_call, update,
      bind, get, modify, call, emit_log, deliver;
    cbn [fields observer MarbleLogger.width MarbleLogger.timeline
         MarbleLogger.name marble_event];
    rewrite cells_window by assumption;
    cbn [lift fields observer clock ticks downstream sink];
    eexists; reflexivity.
Qed.

Lemma marble_run (unicode_upper : pychar -> pystr)
    (colorizer : list fragment -> outcome unit)
    (name : pystr) (width : Z) (o : Observer) (ns : list notification) :
  0 < width ->
  forall (timeline : list MarbleLogger.event) (w : world),
  exists records,
    run unicode_upper colorizer
      (Marble (Obj (Some o) (MarbleLogger.Fields name width timeline))) ns w
    = (Returned tt,
       Marble (Obj (Some o)
                 (MarbleLogger.Fields name width
                    (timeline ++ List.map marble_event ns))),
       World (clock w) (ticks w) (downstream w ++ ns) (sink w ++ records))
    /\ List.length records = List.length ns.
Proof.
  intros Hwidth. induction ns as [|n rest IH]; intros timeline w.
  - exists []. cbn [run List.map List.length]. rewrite !List.app_nil_r.
    split; [now destruct w|reflexivity].
  - destruct (marble_step unicode_upper colorizer name width timeline o n w Hwidth)
      as (record & Hstep).
    destruct (IH (timeline ++ [marble_event n])
                 (World (clock w) (ticks w) (downstream w ++ [n])
                    (sink w ++ [record])))
      as (records & Hrun & Hlen).
    exists (record :: records). split; [|simpl; now rewrite Hlen].
    cbn [run]. rewrite Hstep, Hrun. cbn [clock ticks downstream sink List.map].
    now rewrite <- !List.app_assoc.
Qed.

(** X9.  A [MarbleLogger] of positive width never forgets an event: a
    new instance subscribed to a source ends with a timeline that holds
    one entry for each notification it received (what the source pushed
    up to its first terminal notification), in order, however many they
    are and whatever the width; it has logged one line and made one call
    on its observer for each of them. *)
Theorem marble_keeps_every_event (unicode_upper : pychar -> pystr)
    (colorizer : list fragment -> outcome unit)
    (name : pystr) (width : Z) (o : Observer) (source : list notification)
    (w : world) :
  0 < width ->
  let received := until_terminal source in
  exists records,
    subscribe unicode_upper colorizer (Marble (MarbleLogger.init name width)) source o w
    = (Returned tt,
       Marble (Obj (Some o)
                 (MarbleLogger.Fields name width
                    (List.map marble_event received))),
       World (clock w) (ticks w) (downstream w ++ received) (sink w ++ records))
    /\ List.length records = List.length received.
Proof.
  intros Hwidth received.
  destruct (marble_run unicode_upper colorizer name width o received Hwidth [] w)
    as (records & Hrun & Hlen).
  exists records. split; [|assumption].
  apply subscribe_returns.
  cbn [with_observer MarbleLogger.init BaseOperator.init fields].
  exact Hrun.
Qed.

Lemma marble_keeps_every_event_witness :
  let source := [OnNext (VInt 1); OnNext (VInt 2); OnNext (VInt 3); OnCompleted] in
  let w := World (fun _ => float_of_int 0) 0 [] [] in
  let received := until_terminal source in
  exists records,
    subscribe sample_upper sample_colorizer (Marble (MarbleLogger.init (lit "Source") 2)) source
      0%nat w
    = (Returned tt,
       Marble (Obj (Some 0%nat)
                 (MarbleLogger.Fields (lit "Source") 2
                    (List.map marble_event received))),
       World (clock w) (ticks w) (downstream w ++ received) (sink w ++ records))
    /\ List.length records = List.length received.
Proof.
  intros source w.
  apply (marble_keeps_every_event sample_upper sample_colorizer (lit "Source") 2 0%nat source w).
  lia.
Defined.

Lemma str_int_digit (z : Z) :
  0 <= z <= 9 -> List.length (str_int z) = 1%nat.
Proof.
  intros Hz.
  assert (Hcases : z = 0 \/ z = 1 \/ z = 2 \/ z = 3 \/ z = 4 \/ z = 5
                   \/ z = 6 \/ z = 7 \/ z = 8 \/ z = 9) by lia.
  repeat destruct Hcases as [->|Hcases]; try subst z; reflexivity.
Qed.

Lemma str_int_negative_digit (z : Z) :
  -9 <= z <= -1 -> List.length (str_int z) = 2%nat.
Proof.
  intros Hz.
  assert (Hcases : z = -1 \/ z = -2 \/ z = -3 \/ z = -4 \/ z = -5
                   \/ z = -6 \/ z = -7 \/ z = -8 \/ z = -9) by lia.
  repeat destruct Hcases as [->|Hcases]; try subst z; reflexivity.
Qed.

(** X10.  The symbol of an event is one character, except for an [int]
    between -9 and -1, whose symbol is its two-character text.  (Stated
    for the values that are not floats, and for text that begins with an
    ASCII character.) *)
Theorem marble_symbol_width (unicode_upper : pychar -> pystr)
    (ev : MarbleLogger.event) :
  match ev with
  | MarbleLogger.N (VFloat _) => True
  | MarbleLogger.N (VStr (c :: _)) =>
      (c < 128)%N ->
      List.length (MarbleLogger.symbol unicode_upper ev) = 1%nat
  | MarbleLogger.N (VInt z) =>
      List.length (MarbleLogger.symbol unicode_upper ev)
      = if (-9 <=? z) && (z <=? -1) then 2%nat else 1%nat
  | _ => List.length (MarbleLogger.symbol unicode_upper ev) = 1%nat
  end.
Proof.
  destruct ev as [value|error|]; try reflexivity.
  destruct value as [|b|z|x|s|items|items|items|cls id]; try reflexivity.
  - now destruct b.
  - cbn [MarbleLogger.symbol].
    destruct (-9 <=? z) eqn:Hlow; destruct (z <=? 9) eqn:Hhigh;
      destruct (z <=? -1) eqn:Hneg; cbn [andb]; try reflexivity;
      try apply Z.leb_le in Hlow; try apply Z.leb_le in Hhigh;
      try apply Z.leb_le in Hneg; try apply Z.leb_gt in Hlow;
      try apply Z.leb_gt in Hhigh; try apply Z.leb_gt in Hneg;
      try lia.
    + apply str_int_negative_digit. lia.
    + apply str_int_digit. lia.
  - destruct s as [|c s]; [reflexivity|].
    intros Hascii. cbn [MarbleLogger.symbol]. unfold MarbleLogger.first_upper.
    now replace (c <? 128)%N with true by (symmetry; apply N.ltb_lt; assumption).
Qed.

(** ** The timing state of PerformanceLogger *)

Lemma performance_next_value (unicode_upper : pychar -> pystr)
    (colorizer : list fragment -> outcome unit)
    (name : pystr) (start last : float) (items : list float) (count : Z)
    (log : list (pystr * fragment)) (o : Observer) (value : pyval) (w : world) :
  step unicode_upper colorizer
    (Performance (Obj (Some o)
                    (PerformanceLogger.Fields name None (Some start) (Some last)
                       items count log)))
    (OnNext value) w
  = (Returned tt,
     Performance (Obj (Some o)
                    (PerformanceLogger.Fields name None (Some start)
                       (Some (clock w (ticks w)))
                       (items ++ [fsub (clock w (ticks w)) last])
                       (count + 1) log)),
     World (clock w) (S (ticks w)) (downstream w ++ [OnNext value]) (sink w)).
Proof. reflexivity. Qed.

Lemma performance_values_run (unicode_upper : pychar -> pystr)
    (colorizer : list fragment -> outcome unit)
    (name : pystr) (start : float) (log : list (pystr * fragment))
    (o : Observer) (ck : nat -> float) (values : list pyval) :
  forall (items : list float) (count : Z) (p : nat)
         (sent : list notification) (logged : list log_record),
    run unicode_upper colorizer
      (Performance (Obj (Some o)
                      (PerformanceLogger.Fields name None (Some start)
                         (Some (ck p)) items count log)))
      (List.map OnNext values) (World ck (S p) sent logged)
    = (Returned tt,
       Performance (Obj (Some o)
                      (PerformanceLogger.Fields name None (Some start)
                         (Some (ck (p + List.length values)%nat))
                         (items
                          ++ List.map (fun i => fsub (ck (S (p + i))) (ck (p + i)%nat))
                               (List.seq 0 (List.length values)))
                         (count + Z.of_nat (List.length values)) log)),
       World ck (S (p + List.length values)) (sent ++ List.map OnNext values)
         logged).
Proof.
  induction values as [|value values IH]; intros items count p sent logged.
  - cbn [List.map List.length List.seq run].
    now rewrite Nat.add_0_r, Z.add_0_r, !List.app_nil_r.
  - cbn [List.map run]. rewrite performance_next_value.
    cbn [clock ticks downstream sink]. rewrite IH.
    cbn [List.length List.seq List.map].
    rewrite <- List.seq_shift, List.map_map, <- !List.app_assoc.
    cbn [List.app].
    replace (p + 0)%nat with p by lia.
    replace (S p + List.length values)%nat with (p + S (List.length values))%nat
      by lia.
    replace (count + 1 + Z.of_nat (List.length values))
      with (count + Z.of_nat (S (List.length values))) by lia.
    rewrite (List.map_ext
               (fun i => fsub (ck (S (S p + i))) (ck (S p + i)%nat))
               (fun i => fsub (ck (S (p + S i))) (ck (p + S i)%nat)));
      [reflexivity|].
    intros i. now replace (S p + i)%nat with (p + S i)%nat by lia.
Qed.

(** X11.  A new [PerformanceLogger] without a log interval, subscribed to
    a source that pushes N + 1 values, reads the clock exactly once per
    value and logs nothing: its start time is the reading at the first
    value, its last time the reading at the last one, its count N + 1,
    and its N intervals are the differences between consecutive
    readings, oldest first. *)
Theorem performance_logger_records_intervals (unicode_upper : pychar -> pystr)
    (colorizer : list fragment -> outcome unit)
    (name : pystr) (value : pyval) (values : list pyval)
    (o : Observer) (w : world) :
  let t := ticks w in
  let N := List.length values in
  subscribe unicode_upper colorizer (Performance (PerformanceLogger.init name None))
    (List.map OnNext (value :: values)) o w
  = (Returned tt,
     Performance
       (Obj (Some o)
          (PerformanceLogger.Fields name None
             (Some (clock w t)) (Some (clock w (t + N)%nat))
             (List.map (fun i => fsub (clock w (S (t + i))) (clock w (t + i)%nat))
                       (List.seq 0 N))
             (1 + Z.of_nat N)
             [(lit "component", Text (lit "performance")); (lit "name", Text name)])),
     World (clock w) (S (t + N))
       (downstream w ++ List.map OnNext (value :: values)) (sink w)).
Proof.
  intros t N.
  apply subscribe_returns. rewrite until_terminal_only_values.
  cbn [with_observer PerformanceLogger.init BaseOperator.init fields List.map run].
  change (step unicode_upper colorizer
            (Performance
               (Obj (Some o)
                  (PerformanceLogger.Fields name None None None [] 0
                     [(lit "component", Text (lit "performance"));
                      (lit "name", Text name)])))
            (OnNext value) w)
    with (Returned tt,
          Performance
            (Obj (Some o)
               (PerformanceLogger.Fields name None (Some (clock w t))
                  (Some (clock w t)) [] (0 + 1)
                  [(lit "component", Text (lit "performance"));
                   (lit "name", Text name)])),
          World (clock w) (S t) (downstream w ++ [OnNext value]) (sink w)).
  cbn iota beta.
  rewrite performance_values_run. fold N.
  cbn [List.app]. rewrite <- List.app_assoc.
  replace (0 + 1 + Z.of_nat N) with (1 + Z.of_nat N) by lia.
  reflexivity.
Qed.

(** X12.  A bound [PerformanceLogger] that has no start time, or whose
    start time is the reading 0.0, or whose count is 0, logs no
    statistics on completion or on error: it forwards the terminal
    notification without reading the clock and keeps its state. *)
Theorem performance_logger_without_statistics (unicode_upper : pychar -> pystr)
    (colorizer : list fragment -> outcome unit)
    (self : obj PerformanceLogger.t) (o : Observer) (n : notification) (w : world) :
  observer self = Some o ->
  is_terminal n = true ->
  match PerformanceLogger.start_time (fields self) with
  | None => true
  | Some start =>
      negb (PerformanceLogger.float_bool start)
      || (PerformanceLogger.count (fields self) =? 0)
  end = true ->
  step unicode_upper colorizer (Performance self) n w
  = (Returned tt, Performance self,
     World (clock w) (ticks w) (downstream w ++ [n]) (sink w)).
Proof.
  intros Hbound Hterminal Hnothing.
  destruct self as [obs f]. cbn [observer fields] in *. subst obs.
  destruct n as [value|error|]; [discriminate Hterminal| |];
    cbn [step dispatch PerformanceLogger.methods h_error h_completed];
    unfold PerformanceLogger.on_error, PerformanceLogger.on_completed,
      PerformanceLogger._log_stats, observer_call, bind, get, ret, deliver;
    cbn [fields observer];
    destruct (PerformanceLogger.start_time f) as [start|];
    try rewrite Hnothing; reflexivity.
Qed.

Lemma performance_logger_without_statistics_witness :
  let self := Obj (Some 0%nat) (fields (PerformanceLogger.init (lit "perf") (Some 10))) in
  let w := World (fun _ => float_of_int 1) 0 [] [] in
  step sample_upper sample_colorizer (Performance self) OnCompleted w
  = (Returned tt, Performance self,
     World (clock w) (ticks w) (downstream w ++ [OnCompleted]) (sink w)).
Proof.
  intros self w.
  apply (performance_logger_without_statistics sample_upper sample_colorizer self 0%nat OnCompleted w);
    reflexivity.
Defined.

(** ** The counters of ConditionalLogger *)

Lemma conditional_step_counts (unicode_upper : pychar -> pystr)
    (colorizer : list fragment -> outcome unit)
    (self : obj ConditionalLogger.t) (n : notification) (w : world) :
  forall r op' w',
    step unicode_upper colorizer (Conditional self) n w = (r, op', w') ->
    exists self',
      op' = Conditional self'
      /\ ConditionalLogger.total_count (fields self)
         <= ConditionalLogger.total_count (fields self')
         <= ConditionalLogger.total_count (fields self)
            + (if is_value n then 1 else 0)
      /\ ConditionalLogger.logged_count (fields self)
         <= ConditionalLogger.logged_count (fields self')
      /\ (0 <= ConditionalLogger.logged_count (fields self)
               <= ConditionalLogger.total_count (fields self) ->
          ConditionalLogger.logged_count (fields self')
          <= ConditionalLogger.total_count (fields self')).
Proof.
  intros r op' w' Hstep.
  destruct self as [obs f]; destruct f; destruct n as [value|error|].
  all: method_paths Hstep.
  all: injection Hstep as <- <- <-; eexists; split; [reflexivity|].
  all: cbn [fields ConditionalLogger.total_count ConditionalLogger.logged_count
            is_value is_terminal negb].
  all: repeat match goal with
         | H : (_ =? _) = true |- _ => apply Z.eqb_eq in H
         | H : (_ =? _) = false |- _ => apply Z.eqb_neq in H
         end.
  all: lia.
Qed.

(** X13.  Whatever a [ConditionalLogger] receives, whatever its
    predicates do and whether or not it has an observer, its counters
    only grow, the total grows by at most the number of values received,
    and the logged count stays between 0 and the total (so that the
    ratio it prints is a proportion) when it started so. *)
Theorem conditional_logger_counters_invariant (unicode_upper : pychar -> pystr)
    (colorizer : list fragment -> outcome unit)
    (ns : list notification) (self : obj ConditionalLogger.t) (w : world) :
  0 <= ConditionalLogger.logged_count (fields self)
    <= ConditionalLogger.total_count (fields self) ->
  exists r self' w',
    run unicode_upper colorizer (Conditional self) ns w = (r, Conditional self', w')
    /\ 0 <= ConditionalLogger.logged_count (fields self')
         <= ConditionalLogger.total_count (fields self')
    /\ ConditionalLogger.logged_count (fields self)
       <= ConditionalLogger.logged_count (fields self')
    /\ ConditionalLogger.total_count (fields self)
       <= ConditionalLogger.total_count (fields self')
       <= ConditionalLogger.total_count (fields self)
          + Z.of_nat (List.length (List.filter is_value ns)).
Proof.
  revert self w. induction ns as [|n rest IH]; intros self w Hinv.
  - exists (Returned tt), self, w. cbn [run List.filter List.length].
    split; [reflexivity|lia].
  - cbn [run].
    destruct (step unicode_upper colorizer (Conditional self) n w) as [[r1 op1] w1] eqn:Hstep.
    destruct (conditional_step_counts unicode_upper colorizer self n w r1 op1 w1 Hstep)
      as (self1 & -> & Htotal & Hlogged & Hkeep).
    assert (Hcount : Z.of_nat (List.length (List.filter is_value (n :: rest)))
                     = (if is_value n then 1 else 0)
                       + Z.of_nat (List.length (List.filter is_value rest))).
    { cbn [List.filter]. destruct (is_value n); cbn [List.length]; lia. }
    destruct r1 as [[]|e].
    + destruct (IH self1 w1) as (r & self' & w' & Hrun & Hinv' & Hlogged' & Htotal');
        [lia|].
      exists r, self', w'. split; [assumption|]. lia.
    + exists (Raised e), self1, w1. split; [reflexivity|]. lia.
Qed.

Lemma conditional_logger_counters_invariant_witness :
  let raising (value : pyval) : outcome bool :=
    match value with
    | VInt z => Returned (2 <? z)
    | _ => Raised (TypeError "'>' not supported between instances of 'str' and 'int'")
    end in
  let self := ConditionalLogger.init (lit "Cond") (Some raising) None INFO true in
  let ns := [OnNext (VInt 5); OnNext (VStr (lit "x")); OnNext (VInt 1)] in
  let w := World (fun _ => float_of_int 0) 0 [] [] in
  exists r self' w',
    run sample_upper sample_colorizer (Conditional self) ns w = (r, Conditional self', w')
    /\ 0 <= ConditionalLogger.logged_count (fields self')
         <= ConditionalLogger.total_count (fields self')
    /\ ConditionalLogger.logged_count (fields self)
       <= ConditionalLogger.logged_count (fields self')
    /\ ConditionalLogger.total_count (fields self)
       <= ConditionalLogger.total_count (fields self')
       <= ConditionalLogger.total_count (fields self)
          + Z.of_nat (List.length (List.filter is_value ns)).
Proof.
  intros raising self ns w.
  apply (conditional_logger_counters_invariant sample_upper sample_colorizer ns self w).
  simpl. lia.
Defined.

(** X14.  A value predicate that raises makes [ConditionalLogger.on_next]
    raise the same exception: the total has been incremented, but the
    value is neither logged nor forwarded. *)
Theorem conditional_predicate_exception_escapes (unicode_upper : pychar -> pystr)
    (colorizer : list fragment -> outcome unit)
    (self : obj ConditionalLogger.t) (predicate : pyval -> outcome bool)
    (value : pyval) (e : pyexc) (w : world) :
  ConditionalLogger.value_predicate (fields self) = Some predicate ->
  predicate value = Raised e ->
  step unicode_upper colorizer (Conditional self) (OnNext value) w
  = (Raised e,
     Conditional
       (Obj (observer self)
          (ConditionalLogger.Fields
             (ConditionalLogger.name (fields self))
             (Some predicate)
             (ConditionalLogger.error_predicate (fields self))
             (ConditionalLogger.log_level (fields self))
             (ConditionalLogger.summarize (fields self))
             (ConditionalLogger.total_count (fields self) + 1)
             (ConditionalLogger.logged_count (fields self))
             (ConditionalLogger.log (fields self)))),
     w).
Proof.
  intros Hpredicate Hraise.
  destruct self as [obs f]; destruct f.
  cbn [fields ConditionalLogger.value_predicate] in Hpredicate. subst.
  cbn [step dispatch ConditionalLogger.methods h_next].
  unfold ConditionalLogger.on_next, ConditionalLogger.should, observer_call,
    update, when, bind, get, modify, call.
  cbn [fields observer ConditionalLogger.value_predicate
       ConditionalLogger.name ConditionalLogger.error_predicate
       ConditionalLogger.log_level ConditionalLogger.summarize
       ConditionalLogger.total_count ConditionalLogger.logged_count
       ConditionalLogger.log].
  rewrite Hraise. reflexivity.
Qed.

Lemma conditional_predicate_exception_escapes_witness :
  let e := TypeError "'>' not supported between instances of 'str' and 'int'" in
  let over_two (value : pyval) : outcome bool :=
    match value with VInt z => Returned (2 <? z) | _ => Raised e end in
  let self := Obj (Some 0%nat)
                (fields (ConditionalLogger.init (lit "Cond") (Some over_two)
                           None INFO true)) in
  let w := World (fun _ => float_of_int 0) 0 [] [] in
  step sample_upper sample_colorizer (Conditional self) (OnNext (VStr (lit "x"))) w
  = (Raised e,
     Conditional
       (Obj (Some 0%nat)
          (ConditionalLogger.Fields (lit "Cond") (Some over_two) None INFO true
             (0 + 1) 0
             [(lit "operator", Text (lit "Cond"));
              (lit "mode", Text (lit "conditional"))])),
     w).
Proof.
  intros e over_two self w.
  apply (conditional_predicate_exception_escapes sample_upper sample_colorizer self over_two
           (VStr (lit "x")) e w); reflexivity.
Defined.

(** ** ContextualLogger *)





(** A context entry under a name that is bound anew on each record is
    written over: with the context [{"count": 99}] the record of the
    first value has 1 under [count]. *)
Example contextual_context_written_over :
  let self := Obj (Some 0%nat)
                (ContextualLogger.Fields (lit "ctx") [(lit "count", VInt 99)] 0
                   (float_of_int 100)
                   [(lit "operator", Text (lit "ctx"));
                    (lit "count", Value (VInt 99))]) in
  let w := World (fun tick => float_of_int (Z.of_nat tick + 101)) 0 [] [] in
  ContextualLogger.init (lit "ctx") (Some [(lit "count", VInt 99)]) (float_of_int 100)
  = Some (Obj None (fields self))
  /\ ContextualLogger.init (lit "ctx") (Some [(lit "_Logger__self", VInt 1)])
       (float_of_int 100)
     = None
  /\ List.map log_extra
       (sink (snd (ContextualLogger.on_next (VInt 7) self w)))
     = [[(lit "operator", Text (lit "ctx"));
         (lit "count", Int 1);
         (lit "event", Text (lit "on_next"));
         (lit "elapsed_sec", Rounded 3 (fsub (float_of_int 101) (float_of_int 100)));
         (lit "value_type", Text (lit "int"))]].
Proof. repeat split; reflexivity. Qed.

(** ** RichLoggerOperator *)

(** The message logged for a value does not depend on the count. *)
Lemma rich_value_message (name : pystr) (colorize show_type : bool)
    (count count' : Z) (value : pyval) :
  RichLoggerOperator.message
    (RichLoggerOperator.Fields name colorize show_type count) (OnNext value)
  = RichLoggerOperator.message
      (RichLoggerOperator.Fields name colorize show_type count') (OnNext value).
Proof. reflexivity. Qed.

Lemma rich_next_value (unicode_upper : pychar -> pystr)
    (colorizer : list fragment -> outcome unit)
    (name : pystr) (colorize show_type : bool) (count : Z)
    (o : Observer) (value : pyval) (w : world) :
  markup_accepted colorizer
    (Rich (Obj (Some o) (RichLoggerOperator.Fields name colorize show_type count)))
    (OnNext value) = true ->
  exists record,
    step unicode_upper colorizer
      (Rich (Obj (Some o) (RichLoggerOperator.Fields name colorize show_type count)))
      (OnNext value) w
    = (Returned tt,
       Rich (Obj (Some o)
               (RichLoggerOperator.Fields name colorize show_type (count + 1))),
       World (clock w) (ticks w) (downstream w ++ [OnNext value])
         (sink w ++ [record]))
    /\ log_level record = INFO
    /\ log_colors record = colorize
    /\ log_raw record = match value with VDict _ => true | _ => false end.
Proof.
  intros Haccepted.
  cbn [step]. rewrite rich_dispatch.
  cbn [markup_accepted fields observer RichLoggerOperator.name
       RichLoggerOperator.colorize RichLoggerOperator.show_type
       RichLoggerOperator.count] in Haccepted |- *.
  destruct colorize; cbn [negb orb] in Haccepted.
  - destruct (colorizer _) as [[]|e]; [|discriminate Haccepted].
    cbn [lift]. eexists. split; [reflexivity|]. repeat split.
  - cbn [lift]. eexists. split; [reflexivity|]. repeat split.
Qed.

Lemma rich_values_run (unicode_upper : pychar -> pystr)
    (colorizer : list fragment -> outcome unit)
    (name : pystr) (colorize show_type : bool) (o : Observer)
    (rest : list notification) (values : list pyval) :
  (forall value, List.In value values ->
     markup_accepted colorizer
       (Rich (RichLoggerOperator.init name colorize show_type)) (OnNext value)
     = true) ->
  forall (count : Z) (w : world),
  exists records,
    run unicode_upper colorizer
      (Rich (Obj (Some o) (RichLoggerOperator.Fields name colorize show_type count)))
      (List.map OnNext values ++ rest) w
    = run unicode_upper colorizer
        (Rich (Obj (Some o)
                 (RichLoggerOperator.Fields name colorize show_type
                    (count + Z.of_nat (List.length values)))))
        rest
        (World (clock w) (ticks w) (downstream w ++ List.map OnNext values)
           (sink w ++ records))
    /\ List.length records = List.length values
    /\ List.Forall (fun record => log_level record = INFO
                                  /\ log_colors record = colorize) records.
Proof.
  induction values as [|value values IH]; intros Haccepted count w.
  - exists []. cbn [List.map List.app List.length].
    rewrite Z.add_0_r, !List.app_nil_r. destruct w. repeat split. constructor.
  - destruct (rich_next_value unicode_upper colorizer name colorize show_type count o value w)
      as (record & Hstep & Hlevel & Hcolors & _).
    { specialize (Haccepted value (or_introl eq_refl)).
      cbn [markup_accepted RichLoggerOperator.init BaseOperator.init fields
           RichLoggerOperator.colorize] in Haccepted |- *.
      now rewrite (rich_value_message name colorize show_type count 0). }
    destruct (IH (fun v Hv => Haccepted v (or_intror Hv)) (count + 1)
                 (World (clock w) (ticks w) (downstream w ++ [OnNext value])
                    (sink w ++ [record])))
      as (records & Hrun & Hlen & Hall).
    exists (record :: records). split; [|split].
    + cbn [List.map List.app run]. rewrite Hstep, Hrun.
      cbn [clock ticks downstream sink List.length].
      rewrite <- !List.app_assoc.
      replace (count + 1 + Z.of_nat (List.length values))
        with (count + Z.of_nat (S (List.length values))) by lia.
      reflexivity.
    + cbn [List.length]. now rewrite Hlen.
    + constructor; [split; assumption|assumption].
Qed.

(** X17.  A new [RichLoggerOperator] subscribed to a source of N values
    of any shape that then completes, when Loguru accepts the colour
    markup of the messages (which it does not read when [colorize] is
    off): no method raises, it forwards everything, logs one INFO record
    per value with the colour option it was built with, counts the N
    values, and ends with the SUCCESS record ["COMPLETED after N
    items"]. *)
Theorem rich_logger_counts_items (unicode_upper : pychar -> pystr)
    (colorizer : list fragment -> outcome unit)
    (name : pystr) (colorize show_type : bool) (values : list pyval)
    (o : Observer) (w : world) :
  let N := Z.of_nat (List.length values) in
  (forall value, List.In value values ->
     markup_accepted colorizer
       (Rich (RichLoggerOperator.init name colorize show_type)) (OnNext value)
     = true) ->
  markup_accepted colorizer
    (Rich (Obj None (RichLoggerOperator.Fields name colorize show_type N)))
    OnCompleted = true ->
  exists records,
    subscribe unicode_upper colorizer
      (Rich (RichLoggerOperator.init name colorize show_type))
      (List.map OnNext values ++ [OnCompleted]) o w
    = (Returned tt,
       Rich (Obj (Some o) (RichLoggerOperator.Fields name colorize show_type N)),
       World (clock w) (ticks w)
         (downstream w ++ List.map OnNext values ++ [OnCompleted])
         (sink w ++ records
          ++ [Log SUCCESS false colorize []
                [Text (lit "<yellow>["); Text name; Text (lit "]</yellow>");
                 Text (lit " <green>COMPLETED</green> after "); Int N;
                 Text (lit " items")]]))
    /\ List.length records = List.length values
    /\ List.Forall (fun record => log_level record = INFO
                                  /\ log_colors record = colorize) records.
Proof.
  intros N Hvalues Hcompleted.
  destruct (rich_values_run unicode_upper colorizer name colorize show_type o
              [OnCompleted] values Hvalues 0 w)
    as (records & Hrun & Hlen & Hall).
  exists records. split; [|split; assumption].
  apply subscribe_returns. rewrite until_terminal_values.
  cbn [until_terminal is_terminal].
  cbn [with_observer RichLoggerOperator.init BaseOperator.init fields].
  rewrite Hrun. rewrite Z.add_0_l. fold N.
  cbn [run step]. rewrite rich_dispatch.
  cbn [markup_accepted fields observer RichLoggerOperator.name
       RichLoggerOperator.colorize RichLoggerOperator.show_type
       RichLoggerOperator.count RichLoggerOperator.message]
    in Hcompleted |- *.
  assert (Hparsed : exists u,
            (if colorize
             then colorizer (RichLoggerOperator.completed_message name N)
             else Returned tt) = Returned u).
  { destruct colorize; cbn [negb orb] in Hcompleted; [|now exists tt].
    destruct (colorizer _) as [u|e]; [now exists u|discriminate Hcompleted]. }
  destruct Hparsed as (u & ->).
  cbn [lift downstream sink clock ticks].
  unfold RichLoggerOperator.completed_message, RichLoggerOperator.tag.
  cbn [List.app].
  now rewrite <- !List.app_assoc.
Qed.

Lemma rich_logger_counts_items_witness :
  let values := [VInt 42; VStr (lit "Simple string");
                 VList [VStr (lit "apple"); VStr (lit "banana")]] in
  let w := World (fun _ => float_of_int 0) 0 [] [] in
  exists records,
    subscribe sample_upper sample_colorizer
      (Rich (RichLoggerOperator.init (lit "DataStream") true true))
      (List.map OnNext values ++ [OnCompleted]) 0%nat w
    = (Returned tt,
       Rich (Obj (Some 0%nat)
               (RichLoggerOperator.Fields (lit "DataStream") true true
                  (Z.of_nat (List.length values)))),
       World (clock w) (ticks w)
         (downstream w ++ List.map OnNext values ++ [OnCompleted])
         (sink w ++ records
          ++ [Log SUCCESS false true []
                [Text (lit "<yellow>["); Text (lit "DataStream");
                 Text (lit "]</yellow>");
                 Text (lit " <green>COMPLETED</green> after ");
                 Int (Z.of_nat (List.length values));
                 Text (lit " items")]]))
    /\ List.length records = List.length values
    /\ List.Forall (fun record => log_level record = INFO
                                  /\ log_colors record = true) records.
Proof.
  intros values w.
  apply (rich_logger_counts_items sample_upper sample_colorizer
           (lit "DataStream") true true values 0%nat w).
  - intros value [<-|[<-|[<-|[]]]]; reflexivity.
  - reflexivity.
Defined.

(** What Loguru raises on the colour markup of a message leaves the
    method of a [RichLoggerOperator] built with [colorize]: a value has
    been counted, nothing is logged and the observer is not called. *)
Lemma rich_markup_exception_escapes (unicode_upper : pychar -> pystr)
    (colorizer : list fragment -> outcome unit)
    (name : pystr) (show_type : bool) (count : Z) (obs : option Observer)
    (n : notification) (e : pyexc) (w : world) :
  colorizer (RichLoggerOperator.message
               (RichLoggerOperator.Fields name true show_type count) n)
  = Raised e ->
  step unicode_upper colorizer
    (Rich (Obj obs (RichLoggerOperator.Fields name true show_type count))) n w
  = (Raised e,
     Rich (Obj obs
             (RichLoggerOperator.Fields name true show_type
                (count + (if is_value n then 1 else 0)))),
     w).
Proof.
  intros Hraise. cbn [step]. rewrite rich_dispatch.
  cbn [fields observer RichLoggerOperator.name RichLoggerOperator.colorize
       RichLoggerOperator.show_type RichLoggerOperator.count].
  rewrite Hraise. cbn [lift].
  destruct n; cbn [is_value is_terminal negb]; rewrite ?Z.add_0_r; reflexivity.
Qed.

(** ** The debug operator *)

(** One call of a closure of [debug], with a logging function that
    returns. *)
Lemma debug_step (env : DebugOperator.t) (n : notification) (w : world) :
  (forall message, returns (DebugOperator.logger_func env message) = true) ->
  exists records,
    match n with
    | OnNext value => DebugOperator.on_next value
    | OnError error => DebugOperator.on_error error
    | OnCompleted => DebugOperator.on_completed
    end env w
    = (Returned tt, env,
       World (clock w) (ticks w) (downstream w ++ [n]) (sink w ++ records)).
Proof.
  intros Hlogger.
  destruct n as [value|error|];
    unfold DebugOperator.on_next, DebugOperator.on_error,
      DebugOperator.on_completed, DebugOperator.log_with, bind, get, ret, call,
      deliver;
    [destruct (DebugOperator.print_value env)| |];
    match goal with
    | |- context [DebugOperator.logger_func env ?message] =>
        pose proof (Hlogger message) as Hreturns;
        destruct (DebugOperator.logger_func env message) as [records|e];
        [|discriminate Hreturns]
    end;
    exists records; reflexivity.
Qed.

(** X18.  The [debug] operator, with a logging function that returns,
    forwards every notification it receives (what the source pushes up
    to its first terminal notification) to the observer, in order and
    unchanged, and never raises; it has no state and does not read the
    clock. *)
Theorem debug_operator_forwards_everything
    (env : DebugOperator.t) (source : list notification) (w : world) :
  (forall message, returns (DebugOperator.logger_func env message) = true) ->
  exists records,
    DebugOperator.subscribe source env w
    = (Returned tt, env,
       World (clock w) (ticks w) (downstream w ++ until_terminal source)
         (sink w ++ records)).
Proof.
  intros Hlogger. revert w. unfold DebugOperator.subscribe.
  induction source as [|n rest IH]; intros w.
  - exists []. cbn [source_subscribe until_terminal]. unfold ret.
    rewrite !List.app_nil_r. now destruct w.
  - destruct (debug_step env n w Hlogger) as (records1 & Hstep).
    destruct n as [value|error|]; cbn [source_subscribe until_terminal is_terminal].
    + rewrite Hstep.
      destruct (IH (World (clock w) (ticks w) (downstream w ++ [OnNext value])
                      (sink w ++ records1)))
        as (records & Hrest).
      exists (records1 ++ records). rewrite Hrest.
      cbn [clock ticks downstream sink].
      now rewrite <- !List.app_assoc.
    + exists records1. exact Hstep.
    + exists records1. exact Hstep.
Qed.

Lemma debug_operator_forwards_everything_witness :
  let env := DebugOperator.Closure (lit "debug") true DebugOperator.logger_debug in
  let source := [OnNext (VInt 1); OnNext (VInt 2); OnCompleted] in
  let w := World (fun _ => float_of_int 0) 0 [] [] in
  exists records,
    DebugOperator.subscribe source env w
    = (Returned tt, env,
       World (clock w) (ticks w) (downstream w ++ until_terminal source)
         (sink w ++ records)).
Proof.
  intros env source w.
  apply (debug_operator_forwards_everything env source w).
  intros message. reflexivity.
Defined.

(** X19.  With [print_value] off and the default [logger.debug], the
    [debug] operator logs one DEBUG record per notification it receives
    and none of them formats a value of the stream. *)
Theorem debug_operator_hides_values
    (name : pystr) (source : list notification) (w : world) :
  let env := DebugOperator.Closure name false DebugOperator.logger_debug in
  exists records,
    DebugOperator.subscribe source env w
    = (Returned tt, env,
       World (clock w) (ticks w) (downstream w ++ until_terminal source)
         (sink w ++ records))
    /\ List.length records = List.length (until_terminal source)
    /\ List.forallb (fun record => negb (mentions_value record)) records = true
    /\ List.Forall (fun record => log_level record = DEBUG) records.
Proof.
  intros env. revert w. unfold DebugOperator.subscribe.
  induction source as [|n rest IH]; intros w.
  - exists []. cbn [source_subscribe until_terminal]. unfold ret.
    rewrite !List.app_nil_r. destruct w. repeat split. constructor.
  - assert (Hstep : exists record,
              match n with
              | OnNext value => DebugOperator.on_next value
              | OnError error => DebugOperator.on_error error
              | OnCompleted => DebugOperator.on_completed
              end env w
              = (Returned tt, env,
                 World (clock w) (ticks w) (downstream w ++ [n])
                   (sink w ++ [record]))
              /\ mentions_value record = false
              /\ log_level record = DEBUG).
    { destruct n as [value|error|]; eexists; (split; [reflexivity|]);
        split; reflexivity. }
    destruct Hstep as (record & Hstep & Hhidden & Hlevel).
    destruct n as [value|error|]; cbn [source_subscribe until_terminal is_terminal].
    + rewrite Hstep.
      destruct (IH (World (clock w) (ticks w) (downstream w ++ [OnNext value])
                      (sink w ++ [record])))
        as (records & Hrest & Hlen & Hnone & Hall).
      exists (record :: records). rewrite Hrest.
      cbn [clock ticks downstream sink List.length List.forallb].
      rewrite <- !List.app_assoc, Hhidden, Hlen, Hnone.
      repeat split. constructor; assumption.
    + exists [record]. rewrite Hstep.
      cbn [List.length List.forallb]. rewrite Hhidden.
      repeat split. constructor; [assumption|constructor].
    + exists [record]. rewrite Hstep.
      cbn [List.length List.forallb]. rewrite Hhidden.
      repeat split. constructor; [assumption|constructor].
Qed.
